(** * prometheus-middleware: the instrumenting handler wrapper

    A shallow embedding of [prometheus.go] (package [prometheusmiddleware],
    the revision with the four instruments) and the properties of its
    metric registry binding and of its instrumenting handler wrapper.

    Conventions of the embedding:
    - Go's [int] and [int64] are 64-bit two's-complement integers, modelled
      as [Z] with the wrap-around written out ([wrap64]);
    - a Go [string] is a byte sequence, modelled as [string] (a sequence of
      8-bit characters), so that [len] is [String.length];
    - a Go map is a [gmap]; ranging over it is [map_fold];
    - a [float64] value is kept symbolic: the literal it was written as
      (bucket boundaries) or the integer it was converted from (samples);
    - a handler is a finite tree of calls on its response writer, each
      [Write] continuing with the [(n, err)] the writer returned;
    - code that can panic returns a [Res]. *)

From stdpp Require Import gmap strings list fin_maps.
From Stdlib Require Import ZArith Lia Ascii DecimalString DecimalPos DecimalZ.
From Stdlib Require QArith_base.

Local Open Scope Z_scope.

(** ** Go integers *)

Module GoInt.

Definition min_int : Z := - 2 ^ 63.
Definition max_int : Z := 2 ^ 63 - 1.

(** The value of a mathematical integer once stored in an [int]. *)
Definition wrap64 (z : Z) : Z := (z + 2 ^ 63) mod 2 ^ 64 - 2 ^ 63.

Definition in_range (z : Z) : Prop := min_int <= z <= max_int.

(** [a + b] and [a += b] on [int] and on [int64]. *)
Definition add (a b : Z) : Z := wrap64 (a + b).

(** [len(s)] of a string. *)
Definition len (s : string) : Z := Z.of_nat (String.length s).

End GoInt.

Import GoInt.

(** ** Strings: [strings.ToLower] and [strconv.Itoa] *)

(** [strings.ToLower] on the ASCII range, where Go lowers byte by byte:
    ['A'..'Z'] move to ['a'..'z'] and every other byte stays. *)
Definition lower_byte (c : ascii) : ascii :=
  let n := nat_of_ascii c in
  if (65 <=? n)%nat && (n <=? 90)%nat then ascii_of_nat (n + 32) else c.

Fixpoint ToLower (s : string) : string :=
  match s with
  | EmptyString => EmptyString
  | String c s' => String (lower_byte c) (ToLower s')
  end.

(** [strconv.Itoa]: the decimal digits of [s], most significant first, no
    leading zero, a leading minus sign for a negative [s]. *)
Definition Itoa (s : Z) : string := NilZero.string_of_int (Z.to_int s).

(** Reading a decimal string back, to say what [Itoa] means. *)
Definition Atoi (s : string) : option Z :=
  option_map Z.of_int (NilZero.int_of_string s).

(** ** Requests *)

(** [url.URL], the field the middleware reads. *)
Record Url : Type := { Path : string }.

(** [mux.Route], the fields [GetPathTemplate] reads: the build error of the
    route and the template of its path matcher ([regexp.path], nil when the
    route has none). *)
Record Route : Type := {
  route_err : option string;
  regexp_path : option string
}.

(** [http.Request], the fields the middleware reads. [URL] is a pointer,
    [Header] a map from names to value lists, [ContentLength] an [int64]
    with [-1] for unknown. [ctx_route] is the route gorilla/mux stored in the
    request context when it matched one. *)
Record Request : Type := {
  Method : string;
  URL : option Url;
  Proto : string;
  Header : gmap string (list string);
  Host : string;
  ContentLength : Z;
  ctx_route : option Route
}.

(** ** Size helpers *)

(** The inner loop over the values of one header. *)
Definition add_values (s : Z) (values : list string) : Z :=
  foldl (fun s value => add s (len value)) s values.

(** The body of [for name, values := range r.Header]. *)
Definition add_header (name : string) (values : list string) (s : Z) : Z :=
  add_values (add s (len name)) values.

Definition computeApproximateRequestSize (r : Request) : Z :=
  let s := 0 in
  let s := match URL r with
           | Some u => len (Path u)
           | None => s
           end in
  let s := add s (len (Method r)) in
  let s := add s (len (Proto r)) in
  let s := map_fold add_header s (Header r) in
  let s := add s (len (Host r)) in
  (* N.B. r.Form and r.MultipartForm are assumed to be included in r.URL. *)
  let s := if ContentLength r =? -1 then s else add s (ContentLength r) in
  s.

(** The terms of the size, as mathematical integers. *)
Definition path_len (r : Request) : Z :=
  match URL r with
  | Some u => len (Path u)
  | None => 0
  end.

Definition values_len (values : list string) : Z :=
  foldr (fun value acc => len value + acc) 0 values.

Definition header_len (h : gmap string (list string)) : Z :=
  map_fold (fun name values acc => len name + values_len values + acc) 0 h.

(** The size without the content-length term. *)
Definition base_size (r : Request) : Z :=
  path_len r + len (Method r) + len (Proto r) + header_len (Header r)
  + len (Host r).

(** The content-length term of the code: everything but the marker [-1]. *)
Definition content_term (r : Request) : Z :=
  if ContentLength r =? -1 then 0 else ContentLength r.

(** The size as the specification words it: the content-length counts
    exactly when it is known and non-negative. *)
Definition specified_request_size (r : Request) : Z :=
  base_size r + (if 0 <=? ContentLength r then ContentLength r else 0).

(** ** Response writers and handlers *)

(** Go's [error]; [None] of [option error] is [nil]. *)
Inductive error : Type :=
| Err (msg : string)
| AlreadyRegisteredError (fqName : string).

(** A mutation of the map that [Header()] returns. *)
Inductive HeaderOp : Type :=
| HSet (key value : string)
| HAdd (key value : string)
| HDel (key : string).

Definition apply_header_op (op : HeaderOp) (h : gmap string (list string))
  : gmap string (list string) :=
  match op with
  | HSet key value => <[key := [value]]> h
  | HAdd key value => <[key := default [] (h !! key) ++ [value]]> h
  | HDel key => delete key h
  end.

(** The interface [http.ResponseWriter] over a state [W] of the writer.
    [rw_Write] returns Go's [(n, err)]. *)
Class HttpResponseWriter (W : Type) : Type := {
  rw_Header : W -> gmap string (list string);
  rw_HeaderOp : HeaderOp -> W -> W;
  rw_Write : list Byte.byte -> W -> (Z * option error) * W;
  rw_WriteHeader : Z -> W -> W
}.

(** What a handler does with its response writer: a tree of calls, ended by
    its return. It may read the header map, change it, set the status, and
    write; after a write it continues with what the writer returned. *)
Inductive Handler : Type :=
| Done
| ReadHeader (k : gmap string (list string) -> Handler)
| MutHeader (op : HeaderOp) (k : Handler)
| CallWriteHeader (code : Z) (k : Handler)
| CallWrite (b : list Byte.byte) (k : Z -> option error -> Handler).

(** Running a handler against a writer: the writer's final state and the
    results its [Write] calls were given, in order. *)
Fixpoint ServeHTTP {W : Type} `{HttpResponseWriter W} (h : Handler) (w : W)
  : W * list (Z * option error) :=
  match h with
  | Done => (w, [])
  | ReadHeader k => ServeHTTP (k (rw_Header w)) w
  | MutHeader op k => ServeHTTP k (rw_HeaderOp op w)
  | CallWriteHeader code k => ServeHTTP k (rw_WriteHeader code w)
  | CallWrite b k =>
      let '(res, w') := rw_Write b w in
      let '(wf, results) := ServeHTTP (k (fst res) (snd res)) w' in
      (wf, res :: results)
  end.

(** ** The delegator *)

Definition StatusOK : Z := 200.

Record responseWriterDelegator (W : Type) : Type := {
  ResponseWriter : W;
  status : Z;
  written : Z;
  wroteHeader : bool
}.

Arguments ResponseWriter {W} _.
Arguments status {W} _.
Arguments written {W} _.
Arguments wroteHeader {W} _.

Section Delegator.

Context {W : Type} `{HttpResponseWriter W}.

Definition WriteHeader (code : Z) (r : responseWriterDelegator W)
  : responseWriterDelegator W :=
  {| status := code;
     wroteHeader := true;
     ResponseWriter := rw_WriteHeader code (ResponseWriter r);
     written := written r |}.

Definition Write (b : list Byte.byte) (r : responseWriterDelegator W)
  : (Z * option error) * responseWriterDelegator W :=
  let r := if negb (wroteHeader r) then WriteHeader StatusOK r else r in
  let '((n, err), w) := rw_Write b (ResponseWriter r) in
  ((n, err),
   {| ResponseWriter := w;
      status := status r;
      written := add (written r) n;
      wroteHeader := wroteHeader r |}).

(** [Header] is promoted from the embedded writer. *)
Definition delegator_HeaderOp (op : HeaderOp) (r : responseWriterDelegator W)
  : responseWriterDelegator W :=
  {| ResponseWriter := rw_HeaderOp op (ResponseWriter r);
     status := status r;
     written := written r;
     wroteHeader := wroteHeader r |}.

#[export] Instance delegator_writer
  : HttpResponseWriter (responseWriterDelegator W) := {|
  rw_Header r := rw_Header (ResponseWriter r);
  rw_HeaderOp := delegator_HeaderOp;
  rw_Write := Write;
  rw_WriteHeader := WriteHeader
|}.

(** [&responseWriterDelegator{ResponseWriter: w}] *)
Definition new_delegate (w : W) : responseWriterDelegator W :=
  {| ResponseWriter := w; status := 0; written := 0; wroteHeader := false |}.

End Delegator.

Definition sanitizeMethod (m : string) : string := ToLower m.

Definition sanitizeCode (s : Z) : string := Itoa s.

(** ** A spy writer: records the calls that reach a writer *)

Inductive Call : Type :=
| CHeaderOp (op : HeaderOp)
| CWriteHeader (code : Z)
| CWrite (b : list Byte.byte).

Record Spy (W : Type) : Type := {
  spy_inner : W;
  spy_calls : list Call
}.

Arguments spy_inner {W} _.
Arguments spy_calls {W} _.

Section Spy.

Context {W : Type} `{HttpResponseWriter W}.

Definition spy_on (w : W) : Spy W := {| spy_inner := w; spy_calls := [] |}.

#[export] Instance spy_writer : HttpResponseWriter (Spy W) := {|
  rw_Header s := rw_Header (spy_inner s);
  rw_HeaderOp op s :=
    {| spy_inner := rw_HeaderOp op (spy_inner s);
       spy_calls := spy_calls s ++ [CHeaderOp op] |};
  rw_Write b s :=
    let '(res, w) := rw_Write b (spy_inner s) in
    (res, {| spy_inner := w; spy_calls := spy_calls s ++ [CWrite b] |});
  rw_WriteHeader code s :=
    {| spy_inner := rw_WriteHeader code (spy_inner s);
       spy_calls := spy_calls s ++ [CWriteHeader code] |}
|}.

End Spy.

(** The calls a writer receives once the delegator stands before it, from
    the calls the handler makes: a [WriteHeader(200)] comes before the first
    [Write] that no [WriteHeader] precedes, and nothing else changes. *)
Fixpoint with_implicit_status (calls : list Call) : list Call :=
  match calls with
  | [] => []
  | CHeaderOp op :: rest => CHeaderOp op :: with_implicit_status rest
  | CWriteHeader code :: rest => CWriteHeader code :: rest
  | CWrite b :: rest => CWriteHeader StatusOK :: CWrite b :: rest
  end.

Definition is_write (c : Call) : bool :=
  match c with
  | CWrite _ => true
  | _ => false
  end.

(** ** The response of net/http's server *)

Module NetHTTP.

(** [http.response]: the header map the handler edits, and what went to
    the client: whether the status line was written, the status, the
    headers as they were at that moment, and the body. *)
Record response : Type := {
  handlerHeader : gmap string (list string);
  resp_wroteHeader : bool;
  resp_status : Z;
  sentHeader : gmap string (list string);
  body : list Byte.byte
}.

Definition new_response : response :=
  {| handlerHeader := ∅; resp_wroteHeader := false; resp_status := 0;
     sentHeader := ∅; body := [] |}.

(** A second [WriteHeader] is superfluous and ignored. *)
Definition response_WriteHeader (code : Z) (w : response) : response :=
  if resp_wroteHeader w then w
  else {| handlerHeader := handlerHeader w;
          resp_wroteHeader := true;
          resp_status := code;
          sentHeader := handlerHeader w;
          body := body w |}.

(** 1xx, 204 and 304 responses carry no body. *)
Definition bodyAllowedForStatus (s : Z) : bool :=
  if (100 <=? s) && (s <=? 199) then false
  else if s =? 204 then false
  else if s =? 304 then false
  else true.

(** [Write] sets status 200 first when no status was written, and refuses
    the bytes when the status allows no body. *)
Definition response_Write (b : list Byte.byte) (w : response)
  : (Z * option error) * response :=
  let w := if resp_wroteHeader w then w else response_WriteHeader StatusOK w in
  if bodyAllowedForStatus (resp_status w) then
    ((Z.of_nat (length b), None),
     {| handlerHeader := handlerHeader w;
        resp_wroteHeader := resp_wroteHeader w;
        resp_status := resp_status w;
        sentHeader := sentHeader w;
        body := body w ++ b |})
  else ((0, Some (Err "http: request method or response status code does not allow body")), w).

Definition response_HeaderOp (op : HeaderOp) (w : response) : response :=
  {| handlerHeader := apply_header_op op (handlerHeader w);
     resp_wroteHeader := resp_wroteHeader w;
     resp_status := resp_status w;
     sentHeader := sentHeader w;
     body := body w |}.

#[export] Instance response_writer : HttpResponseWriter response := {|
  rw_Header := handlerHeader;
  rw_HeaderOp := response_HeaderOp;
  rw_Write := response_Write;
  rw_WriteHeader := response_WriteHeader
|}.

End NetHTTP.

Import NetHTTP.

(** ** The Prometheus client: instruments, registry, log *)

(** The three label values of one series, in the order of the label names
    [code], [method], [path]. *)
Abbreviation LabelValues := (string * string * string)%type.

(** A [float64] sample, by the expression it was computed from:
    [float64(z)] of an integer, or [float64(d) / float64(time.Second)] of a
    duration of [d] nanoseconds. *)
Inductive Sample : Type :=
| OfInt (z : Z)
| SecondsOf (d : Z).

Inductive Kind : Type := Counter | Histogram.

Record Desc : Type := {
  fqName : string;
  help : string;
  variableLabels : list string
}.

Record CounterOpts : Type := {
  co_Namespace : string;
  co_Subsystem : string;
  co_Name : string;
  co_Help : string
}.

Record HistogramOpts : Type := {
  ho_Namespace : string;
  ho_Subsystem : string;
  ho_Name : string;
  ho_Help : string;
  ho_Buckets : list QArith_base.Q
}.

Record CounterVec : Type := {
  counter_desc : Desc;
  counter_value : gmap LabelValues N
}.

Record HistogramVec : Type := {
  histogram_desc : Desc;
  histogram_buckets : list QArith_base.Q;
  histogram_samples : gmap LabelValues (list Sample)
}.

Definition join_ (a b : string) : string := a +:+ "_" +:+ b.

(** [prometheus.BuildFQName]: the non-empty parts joined by an underscore. *)
Definition BuildFQName (namespace subsystem name : string) : string :=
  if String.eqb name "" then ""
  else if negb (String.eqb namespace "") && negb (String.eqb subsystem "")
       then join_ namespace (join_ subsystem name)
  else if negb (String.eqb namespace "") then join_ namespace name
  else if negb (String.eqb subsystem "") then join_ subsystem name
  else name.

Definition NewCounterVec (opts : CounterOpts) (labelNames : list string)
  : CounterVec :=
  {| counter_desc :=
       {| fqName := BuildFQName (co_Namespace opts) (co_Subsystem opts) (co_Name opts);
          help := co_Help opts;
          variableLabels := labelNames |};
     counter_value := ∅ |}.

Definition NewHistogramVec (opts : HistogramOpts) (labelNames : list string)
  : HistogramVec :=
  {| histogram_desc :=
       {| fqName := BuildFQName (ho_Namespace opts) (ho_Subsystem opts) (ho_Name opts);
          help := ho_Help opts;
          variableLabels := labelNames |};
     histogram_buckets := ho_Buckets opts;
     histogram_samples := ∅ |}.

(** [c.WithLabelValues(code, method, path).Inc()] *)
Definition Inc (lvs : LabelValues) (c : CounterVec) : CounterVec :=
  {| counter_desc := counter_desc c;
     counter_value :=
       <[lvs := (default 0 (counter_value c !! lvs) + 1)%N]> (counter_value c) |}.

(** [h.WithLabelValues(code, method, path).Observe(x)] *)
Definition Observe (lvs : LabelValues) (x : Sample) (h : HistogramVec)
  : HistogramVec :=
  {| histogram_desc := histogram_desc h;
     histogram_buckets := histogram_buckets h;
     histogram_samples :=
       <[lvs := default [] (histogram_samples h !! lvs) ++ [x]]>
         (histogram_samples h) |}.

(** The process-wide state the constructor touches: the default registry
    (the instruments registered so far) and the lines of the standard
    logger. *)
Record Globals : Type := {
  registry : list (Kind * Desc);
  logged : list (string * error)
}.

(** Code that reads and writes the process-wide state. *)
Definition Global (A : Type) : Type := Globals -> A * Globals.

Definition ret {A : Type} (a : A) : Global A := fun g => (a, g).

Definition bind {A B : Type} (c : Global A) (k : A -> Global B) : Global B :=
  fun g => let '(a, g') := c g in k a g'.

Notation "'call' x <- c ;; k" := (bind c (fun x => k))
  (at level 10, x name, c at level 99, k at level 200).

Notation "'run' c ;; k" := (bind c (fun _ => k))
  (at level 10, c at level 99, k at level 200).

Definition registered_names (g : Globals) : list string :=
  map (fun kd => fqName (snd kd)) (registry g).

(** [prometheus.Register]: an instrument whose name is taken is refused
    with an [AlreadyRegisteredError]; another one joins the registry. *)
Definition Register (k : Kind) (d : Desc) : Global (option error) :=
  fun g =>
    if bool_decide (fqName d ∈ registered_names g)
    then (Some (AlreadyRegisteredError (fqName d)), g)
    else (None, {| registry := registry g ++ [(k, d)]; logged := logged g |}).

(** [log.Println(msg, err)] *)
Definition Println (msg : string) (err : error) : Global unit :=
  fun g => (tt, {| registry := registry g; logged := logged g ++ [(msg, err)] |}).

(** [if err := ...; err != nil { log.Println(msg, err) }] *)
Definition log_if_err (msg : string) (err : option error) : Global unit :=
  match err with
  | Some e => Println msg e
  | None => ret tt
  end.

(** ** The middleware *)

(** The rational a decimal literal denotes: [0.3] is [decimal 3 10]. *)
Definition decimal (n : Z) (d : positive) : QArith_base.Q := QArith_base.Qmake n d.

Definition dflBuckets : list QArith_base.Q := [decimal 3 10; decimal 1 1; decimal 25 10; decimal 5 1].

Definition requestName : string := "http_requests_total".
Definition latencyName : string := "http_request_duration_seconds".
Definition responseSizeName : string := "response_size_bytes".
Definition requestSizeName : string := "request_size_bytes".

Record Opts : Type := {
  Buckets : list QArith_base.Q;
  Subsystem : string
}.

Record PrometheusMiddleware : Type := {
  request : CounterVec;
  latency : HistogramVec;
  reqSize : HistogramVec;
  resSize : HistogramVec
}.

Definition NewPrometheusMiddleware (opts : Opts) : Global PrometheusMiddleware :=
  let counterOpts :=
    {| co_Name := requestName;
       co_Help := "How many HTTP requests processed, partitioned by status code, method and HTTP path.";
       co_Subsystem := Subsystem opts;
       co_Namespace := "" |} in
  let request_ := NewCounterVec counterOpts ["code"; "method"; "path"] in
  call err <- Register Counter (counter_desc request_) ;;
  run log_if_err "prometheusMiddleware.request was not registered:" err ;;
  let buckets := Buckets opts in
  let buckets := if (length buckets =? 0)%nat then dflBuckets else buckets in
  let histogramOpts :=
    {| ho_Name := latencyName;
       ho_Help := "How long it took to process the request, partitioned by status code, method and HTTP path.";
       ho_Buckets := buckets;
       ho_Subsystem := Subsystem opts;
       ho_Namespace := "" |} in
  let latency_ := NewHistogramVec histogramOpts ["code"; "method"; "path"] in
  call err <- Register Histogram (histogram_desc latency_) ;;
  run log_if_err "prometheusMiddleware.latency was not registered:" err ;;
  let reqSizeOpts :=
    {| ho_Name := requestSizeName;
       ho_Help := "How large was the request, partitioned by status code, method and HTTP path.";
       ho_Buckets := buckets;
       ho_Subsystem := "";
       ho_Namespace := "" |} in
  let reqSize_ := NewHistogramVec reqSizeOpts ["code"; "method"; "path"] in
  call err <- Register Histogram (histogram_desc reqSize_) ;;
  run log_if_err "prometheusMiddleware.reqSize was not registered:" err ;;
  let resSizeOpts :=
    {| ho_Name := responseSizeName;
       ho_Help := "How large was the response, partitioned by status code, method and HTTP path.";
       ho_Buckets := buckets;
       ho_Subsystem := "";
       ho_Namespace := "" |} in
  let resSize_ := NewHistogramVec resSizeOpts ["code"; "method"; "path"] in
  call err <- Register Histogram (histogram_desc resSize_) ;;
  run log_if_err "prometheusMiddleware.resSize was not registered:" err ;;
  ret {| request := request_; latency := latency_;
         reqSize := reqSize_; resSize := resSize_ |}.

(** ** The router *)

(** The outcome of code that can panic. *)
Inductive Res (A : Type) : Type :=
| Ok (a : A)
| Panic (msg : string).

Arguments Ok {A} _.
Arguments Panic {A} _.

(** [mux.CurrentRoute]: the route in the request context, nil when the
    context holds none. *)
Definition CurrentRoute (r : Request) : option Route := ctx_route r.

(** [GetPathTemplate] of a [mux.Route] pointer. It starts by reading [r.err], so a nil
    receiver is a nil pointer dereference. *)
Definition GetPathTemplate (route : option Route) : Res (string * option error) :=
  match route with
  | None => Panic "runtime error: invalid memory address or nil pointer dereference"
  | Some rt =>
      match route_err rt with
      | Some e => Ok ("", Some (Err e))
      | None =>
          match regexp_path rt with
          | None => Ok ("", Some (Err "mux: route doesn't have a path"))
          | Some template => Ok (template, None)
          end
      end
  end.

(** ** The instrumenting wrapper *)

Section Instrument.

Context {W : Type} `{HttpResponseWriter W}.

(** The handler [InstrumentHandlerDuration(next)] returns, run on the
    writer [w] and the request [r]; [elapsed] is the duration
    [time.Since(begin)] measures when the latency is observed. The result
    is the middleware with its instruments updated and the writer as the
    handler left it. *)
Definition InstrumentHandlerDuration (p : PrometheusMiddleware)
    (next : Request -> Handler) (elapsed : Z) (w : W) (r : Request)
  : Res (PrometheusMiddleware * W) :=
  let delegate := new_delegate w in
  let rw := delegate in
  let '(delegate, _) := ServeHTTP (next r) rw in (* call original *)
  let route := CurrentRoute r in
  match GetPathTemplate route with
  | Panic msg => Panic msg
  | Ok (path, _) =>
      let code := sanitizeCode (status delegate) in
      let method := sanitizeMethod (Method r) in
      let request_ := Inc (code, method, path) (request p) in
      let latency_ :=
        Observe (code, method, path) (SecondsOf elapsed) (latency p) in
      let reqSize_ :=
        Observe (code, method, path)
          (OfInt (computeApproximateRequestSize r)) (reqSize p) in
      let resSize_ :=
        Observe (code, method, path) (OfInt (written delegate)) (resSize p) in
      Ok ({| request := request_; latency := latency_;
             reqSize := reqSize_; resSize := resSize_ |},
          ResponseWriter delegate)
  end.

End Instrument.

(** [finishRequest] of net/http's server: when the handler returned
    without writing a status, the server writes 200. *)
Definition finishRequest (w : response) : response :=
  if resp_wroteHeader w then w else response_WriteHeader StatusOK w.

(** ** Observations on runs *)

(** The byte counts a run's [Write] calls reported, summed. *)
Definition bytes_reported (results : list (Z * option error)) : Z :=
  foldr (fun res acc => fst res + acc) 0 results.

(** The code of the last [WriteHeader] among some calls. *)
Fixpoint last_status (calls : list Call) : option Z :=
  match calls with
  | [] => None
  | c :: rest =>
      match last_status rest, c with
      | Some code, _ => Some code
      | None, CWriteHeader code => Some code
      | None, _ => None
      end
  end.

(** The code of the first [WriteHeader] among some calls. *)
Fixpoint first_status (calls : list Call) : option Z :=
  match calls with
  | [] => None
  | CWriteHeader code :: _ => Some code
  | _ :: rest => first_status rest
  end.

(** The handler makes no [WriteHeader] call, whatever its writer returns. *)
Fixpoint never_sets_status (h : Handler) : Prop :=
  match h with
  | Done => True
  | ReadHeader k => forall m, never_sets_status (k m)
  | MutHeader _ k => never_sets_status k
  | CallWriteHeader _ _ => False
  | CallWrite _ k => forall n err, never_sets_status (k n err)
  end.

(** The documented contract of [http.ResponseWriter.Write]: if [WriteHeader]
    has not yet been called, [Write] calls [WriteHeader(http.StatusOK)]
    before writing the data. [pristine] holds of the states in which
    [WriteHeader] has not yet been called; editing the header map keeps a
    writer in such a state. *)
Class WriteImpliesStatusOK (W : Type) `{HttpResponseWriter W}
    (pristine : W -> Prop) : Prop := {
  pristine_HeaderOp :
    forall op w, pristine w -> pristine (rw_HeaderOp op w);
  write_implies_status :
    forall b w, pristine w ->
      rw_Write b (rw_WriteHeader StatusOK w) = rw_Write b w
}.

(** The request with another route in its context. *)
Definition with_route (route : option Route) (r : Request) : Request :=
  {| Method := Method r; URL := URL r; Proto := Proto r; Header := Header r;
     Host := Host r; ContentLength := ContentLength r; ctx_route := route |}.

(** The request with another [URL] pointer. *)
Definition with_URL (u : option Url) (r : Request) : Request :=
  {| Method := Method r; URL := u; Proto := Proto r; Header := Header r;
     Host := Host r; ContentLength := ContentLength r;
     ctx_route := ctx_route r |}.

(** What [GetPathTemplate] returns for a route, the error dropped: the
    template of its path matcher, and the empty string when the route is in
    error or matches no path. *)
Definition route_template (route : Route) : string :=
  match route_err route, regexp_path route with
  | None, Some template => template
  | _, _ => ""
  end.

(** The label values the wrapper computes for a run that left the
    delegator in [status] on a request routed to [route]. *)
Definition label_values (st : Z) (r : Request) (route : Route) : LabelValues :=
  (Itoa st, ToLower (Method r), route_template route).

(** One registration of the constructor, with its log line on failure:
    [if err := prometheus.Register(c); err != nil { log.Println(msg, err) }]. *)
Definition register_or_log (msg : string) (k : Kind) (d : Desc) : Global unit :=
  call err <- Register k d ;; log_if_err msg err.

(** ** Sample inputs *)

Module Samples.

Definition no_globals : Globals := {| registry := []; logged := [] |}.

Definition sminem : Opts := {| Buckets := []; Subsystem := "sminem" |}.

Definition plain : Opts := {| Buckets := []; Subsystem := "" |}.

Definition metrics_route : Route :=
  {| route_err := None; regexp_path := Some "/metrics" |}.

Definition users_route : Route :=
  {| route_err := None; regexp_path := Some "/users/{id}" |}.

(** A GET to [/metrics] without a body. *)
Definition get_metrics : Request :=
  {| Method := "GET";
     URL := Some {| Path := "/metrics" |};
     Proto := "HTTP/1.1";
     Header := {[ "Accept" := ["*/*"] ]};
     Host := "localhost";
     ContentLength := -1;
     ctx_route := Some metrics_route |}.

(** The same request with a content-length of [-5]. *)
Definition get_metrics_minus5 : Request :=
  {| Method := "GET";
     URL := Some {| Path := "/metrics" |};
     Proto := "HTTP/1.1";
     Header := {[ "Accept" := ["*/*"] ]};
     Host := "localhost";
     ContentLength := -5;
     ctx_route := Some metrics_route |}.

Definition get_user : Request :=
  {| Method := "GET";
     URL := Some {| Path := "/users/42" |};
     Proto := "HTTP/1.1";
     Header := ∅;
     Host := "localhost";
     ContentLength := 0;
     ctx_route := Some users_route |}.

Definition zeros (n : nat) : list Byte.byte := replicate n Byte.x00.

(** Three writes of 10, 20 and 5 bytes, no status set. *)
Definition three_writes (_ : Request) : Handler :=
  CallWrite (zeros 10) (fun _ _ =>
  CallWrite (zeros 20) (fun _ _ =>
  CallWrite (zeros 5) (fun _ _ => Done))).

(** A handler that returns without touching its writer. *)
Definition silent (_ : Request) : Handler := Done.

(** [WriteHeader(404)], then a body. *)
Definition not_found (_ : Request) : Handler :=
  CallWriteHeader 404 (CallWrite (zeros 9) (fun _ _ => Done)).

(** [WriteHeader(404)], then [WriteHeader(500)]. *)
Definition two_statuses (_ : Request) : Handler :=
  CallWriteHeader 404 (CallWriteHeader 500 Done).

(** The middleware built first in a fresh process. *)
Definition middleware : PrometheusMiddleware :=
  fst (NewPrometheusMiddleware plain no_globals).

End Samples.

(** ** Further observations *)


(** The total length of the names and values of some header entries. *)
Definition entries_len (entries : list (string * list string)) : Z :=
  foldr (fun nv acc => len (fst nv) + values_len (snd nv) + acc) 0 entries.

(** [computeApproximateRequestSize] with the order made explicit in which
    [range r.Header] visits the entries of the map: Go leaves that order
    open, and [order] lists the entries as one run visits them. *)
Definition computeApproximateRequestSize_in_order
    (order : list (string * list string)) (r : Request) : Z :=
  let s := 0 in
  let s := match URL r with
           | Some u => len (Path u)
           | None => s
           end in
  let s := add s (len (Method r)) in
  let s := add s (len (Proto r)) in
  let s := foldl (fun s nv => add_header (fst nv) (snd nv) s) s order in
  let s := add s (len (Host r)) in
  let s := if ContentLength r =? -1 then s else add s (ContentLength r) in
  s.

(** The request with another content-length. *)
Definition with_ContentLength (n : Z) (r : Request) : Request :=
  {| Method := Method r; URL := URL r; Proto := Proto r; Header := Header r;
     Host := Host r; ContentLength := n; ctx_route := ctx_route r |}.

(** The request with another header map. *)
Definition with_Header (h : gmap string (list string)) (r : Request) : Request :=
  {| Method := Method r; URL := URL r; Proto := Proto r; Header := h;
     Host := Host r; ContentLength := ContentLength r;
     ctx_route := ctx_route r |}.

Definition is_header_op (c : Call) : bool :=
  match c with
  | CHeaderOp _ => true
  | _ => false
  end.

(** The bytes some calls offered to [Write]. *)
Definition offered (calls : list Call) : Z :=
  foldr (fun c acc => match c with
                      | CWrite b => Z.of_nat (length b) + acc
                      | _ => acc
                      end) 0 calls.

(** The handler calls [WriteHeader] before any [Write], whatever its
    writer's header map holds. *)
Fixpoint sets_status_first (h : Handler) : Prop :=
  match h with
  | Done => True
  | ReadHeader k => forall m, sets_status_first (k m)
  | MutHeader _ k => sets_status_first k
  | CallWriteHeader _ _ => True
  | CallWrite _ _ => False
  end.

(** The status the delegator ends with, from the calls its handler made. *)
Definition status_of_calls (calls : list Call) : Z :=
  match last_status calls with
  | Some code => code
  | None => if existsb is_write calls then StatusOK else 0
  end.

(** A writer whose [Write] reports a count between 0 and the length of the
    slice, as [io.Writer] asks. *)
Definition counts_within_slice (W : Type) `{HttpResponseWriter W} : Prop :=
  forall (b : list Byte.byte) (w : W),
    0 <= fst (fst (rw_Write b w)) <= Z.of_nat (length b).

(** The requests a counter has counted, over all its series. *)
Definition total_count (c : CounterVec) : N :=
  map_fold (fun _ n acc => (n + acc)%N) 0%N (counter_value c).


(** ** The earlier revision of the constructor *)

Module Rev1.

(** The middleware of the earlier revision: a counter and a latency
    histogram. *)
Record PrometheusMiddleware : Type := {
  request : CounterVec;
  latency : HistogramVec
}.

Definition NewPrometheusMiddleware (opts : Opts) : Global PrometheusMiddleware :=
  let counterOpts :=
    {| co_Name := requestName;
       co_Help := "How many HTTP requests processed, partitioned by status code, method and HTTP path.";
       co_Subsystem := "";
       co_Namespace := "" |} in
  let counterOpts :=
    if (0 <? String.length (Subsystem opts))%nat
    then {| co_Name := co_Name counterOpts;
            co_Help := co_Help counterOpts;
            co_Subsystem := Subsystem opts;
            co_Namespace := co_Namespace counterOpts |}
    else counterOpts in
  let request_ := NewCounterVec counterOpts ["code"; "method"; "path"] in
  call err <- Register Counter (counter_desc request_) ;;
  run log_if_err "prometheusMiddleware.request was not registered:" err ;;
  let buckets := Buckets opts in
  let buckets := if (length buckets =? 0)%nat then dflBuckets else buckets in
  let histogramOpts :=
    {| ho_Name := latencyName;
       ho_Help := "How long it took to process the request, partitioned by status code, method and HTTP path.";
       ho_Buckets := buckets;
       ho_Subsystem := "";
       ho_Namespace := "" |} in
  let histogramOpts :=
    if (0 <? String.length (Subsystem opts))%nat
    then {| ho_Name := ho_Name histogramOpts;
            ho_Help := ho_Help histogramOpts;
            ho_Buckets := ho_Buckets histogramOpts;
            ho_Subsystem := Subsystem opts;
            ho_Namespace := ho_Namespace histogramOpts |}
    else histogramOpts in
  let latency_ := NewHistogramVec histogramOpts ["code"; "method"; "path"] in
  call err <- Register Histogram (histogram_desc latency_) ;;
  run log_if_err "prometheusMiddleware.latency was not registered:" err ;;
  ret {| request := request_; latency := latency_ |}.

End Rev1.

(** ** More sample inputs *)

Module Cases.

(** A POST with two headers and a body of 12 bytes. *)
Definition post_user : Request :=
  {| Method := "POST";
     URL := Some {| Path := "/users" |};
     Proto := "HTTP/1.1";
     Header := {[ "Accept" := ["*/*"]; "Content-Type" := ["text/plain"] ]};
     Host := "localhost";
     ContentLength := 12;
     ctx_route := Some {| route_err := None; regexp_path := Some "/users" |} |}.

(** [Header().Set], [WriteHeader(201)], then a body. *)
Definition created (_ : Request) : Handler :=
  MutHeader (HSet "Location" "/users/7")
    (CallWriteHeader 201 (CallWrite (Samples.zeros 4) (fun _ _ => Done))).

End Cases.

(** * Properties *)

(** ** Integer arithmetic *)

Lemma wrap64_in_range (z : Z) : in_range z -> wrap64 z = z.
Proof.
  unfold in_range, min_int, max_int, wrap64. intros Hz.
  rewrite Z.mod_small; lia.
Qed.

Lemma wrap64_range (z : Z) : in_range (wrap64 z).
Proof.
  unfold in_range, min_int, max_int, wrap64.
  pose proof (Z.mod_pos_bound (z + 2 ^ 63) (2 ^ 64)). lia.
Qed.

Lemma wrap64_add_l (a b : Z) : wrap64 (wrap64 a + b) = wrap64 (a + b).
Proof.
  unfold wrap64.
  replace ((a + 2 ^ 63) mod 2 ^ 64 - 2 ^ 63 + b + 2 ^ 63)
    with ((a + 2 ^ 63) mod 2 ^ 64 + b) by lia.
  rewrite Zplus_mod_idemp_l. do 2 f_equal. lia.
Qed.

Lemma add_wrap_l (a b : Z) : add (wrap64 a) b = wrap64 (a + b).
Proof. apply wrap64_add_l. Qed.

Lemma len_nonneg (s : string) : 0 <= len s.
Proof. unfold len. lia. Qed.

(** ** The request size *)

Lemma add_values_sum (s : Z) (values : list string) :
  add_values (wrap64 s) values = wrap64 (s + values_len values).
Proof.
  unfold add_values. revert s.
  induction values as [|v values IH]; intros s; simpl.
  - f_equal. lia.
  - rewrite add_wrap_l, IH. f_equal. lia.
Qed.

Lemma add_header_sum (name : string) (values : list string) (s : Z) :
  add_header name values (wrap64 s)
  = wrap64 (len name + values_len values + s).
Proof.
  unfold add_header. rewrite add_wrap_l, add_values_sum. f_equal. lia.
Qed.

(** The loop over the header map adds the lengths of all names and values,
    whatever the order of the iteration. *)
Lemma header_loop_sum (s : Z) (h : gmap string (list string)) :
  map_fold add_header (wrap64 s) h = wrap64 (s + header_len h).
Proof.
  unfold header_len. rewrite !map_fold_foldr.
  induction (map_to_list h) as [|[name values] l IH]; simpl.
  - f_equal. lia.
  - rewrite IH, add_header_sum. f_equal. lia.
Qed.

Lemma values_len_nonneg (values : list string) : 0 <= values_len values.
Proof.
  induction values as [|v values IH]; simpl; [lia|].
  pose proof (len_nonneg v). lia.
Qed.

Lemma header_len_nonneg (h : gmap string (list string)) : 0 <= header_len h.
Proof.
  unfold header_len. rewrite map_fold_foldr.
  induction (map_to_list h) as [|[name values] l IH]; simpl; [lia|].
  pose proof (len_nonneg name). pose proof (values_len_nonneg values). lia.
Qed.

Lemma computeApproximateRequestSize_sum (r : Request) :
  computeApproximateRequestSize r = wrap64 (base_size r + content_term r).
Proof.
  unfold computeApproximateRequestSize, base_size, content_term, path_len.
  set (p := match URL r with Some u => len (Path u) | None => 0 end).
  assert (Hloop :
    map_fold add_header (add (add p (len (Method r))) (len (Proto r))) (Header r)
    = wrap64 (p + len (Method r) + len (Proto r) + header_len (Header r))).
  { unfold add. rewrite wrap64_add_l. apply header_loop_sum. }
  rewrite Hloop, !add_wrap_l.
  destruct (ContentLength r =? -1); f_equal; lia.
Qed.

(** ** Running a handler *)

Lemma bytes_reported_cons (res : Z * option error)
    (results : list (Z * option error)) :
  bytes_reported (res :: results) = fst res + bytes_reported results.
Proof. reflexivity. Qed.

Section ServeSteps.

Context {W : Type} `{HttpResponseWriter W}.

Lemma ServeHTTP_CallWrite (b : list Byte.byte)
    (k : Z -> option error -> Handler) (w : W) :
  ServeHTTP (CallWrite b k) w
  = let out := rw_Write b w in
    let rest := ServeHTTP (k (fst (fst out)) (snd (fst out))) (snd out) in
    (fst rest, fst out :: snd rest).
Proof.
  simpl. destruct (rw_Write b w) as [res w']. simpl.
  destruct (ServeHTTP (k (fst res) (snd res)) w'). reflexivity.
Qed.

Lemma Write_unfold (b : list Byte.byte) (d : responseWriterDelegator W) :
  Write b d
  = let r := if negb (wroteHeader d) then WriteHeader StatusOK d else d in
    let out := rw_Write b (ResponseWriter r) in
    (fst out,
     {| ResponseWriter := snd out;
        status := status r;
        written := add (written r) (fst (fst out));
        wroteHeader := wroteHeader r |}).
Proof.
  unfold Write.
  destruct (rw_Write b
    (ResponseWriter (if negb (wroteHeader d) then WriteHeader StatusOK d else d)))
    as [[n err] w]. reflexivity.
Qed.

End ServeSteps.

Section Serve.

Context {W : Type} `{HttpResponseWriter W}.

(** A spy changes nothing for the writer it watches nor for the handler. *)
Lemma spy_transparent (h : Handler) : forall s : Spy W,
  spy_inner (fst (ServeHTTP h s)) = fst (ServeHTTP h (spy_inner s))
  /\ snd (ServeHTTP h s) = snd (ServeHTTP h (spy_inner s)).
Proof.
  induction h as [|k IH|op k IH|code k IH|b k IH]; intros s.
  - split; reflexivity.
  - exact (IH (rw_Header (spy_inner s)) s).
  - exact (IH (rw_HeaderOp op s)).
  - exact (IH (rw_WriteHeader code s)).
  - rewrite !ServeHTTP_CallWrite. cbn [rw_Write spy_writer].
    destruct (rw_Write b (spy_inner s)) as [res w'] eqn:Hw. cbn.
    destruct (IH (fst res) (snd res)
                {| spy_inner := w'; spy_calls := spy_calls s ++ [CWrite b] |})
      as [IH1 IH2].
    cbn in IH1, IH2. rewrite IH1, IH2. split; reflexivity.
Qed.

(** Once a status went through the delegator, it only forwards. *)
Lemma delegator_forwards (h : Handler) : forall d : responseWriterDelegator W,
  wroteHeader d = true ->
  ResponseWriter (fst (ServeHTTP h d)) = fst (ServeHTTP h (ResponseWriter d))
  /\ snd (ServeHTTP h d) = snd (ServeHTTP h (ResponseWriter d)).
Proof.
  induction h as [|k IH|op k IH|code k IH|b k IH]; intros d Hd.
  - split; reflexivity.
  - exact (IH (rw_Header (ResponseWriter d)) d Hd).
  - exact (IH (delegator_HeaderOp op d) Hd).
  - exact (IH (WriteHeader code d) eq_refl).
  - rewrite !ServeHTTP_CallWrite. cbn [rw_Write delegator_writer].
    rewrite Write_unfold, Hd. cbn.
    destruct (rw_Write b (ResponseWriter d)) as [res w'] eqn:Hw. cbn.
    match goal with
    | |- context [ServeHTTP _ ?d1] =>
        destruct (IH (fst res) (snd res) d1 Hd) as [IH1 IH2]
    end.
    cbn in IH1, IH2. rewrite IH1, IH2. split; reflexivity.
Qed.

(** The byte count of the delegator is the sum of what its writes
    reported, in [int64] arithmetic. *)
Lemma written_sum (h : Handler) : forall d : responseWriterDelegator W,
  in_range (written d) ->
  written (fst (ServeHTTP h d))
  = wrap64 (written d + bytes_reported (snd (ServeHTTP h d))).
Proof.
  induction h as [|k IH|op k IH|code k IH|b k IH]; intros d Hd.
  - cbn. rewrite Z.add_0_r. symmetry. apply wrap64_in_range, Hd.
  - exact (IH (rw_Header (ResponseWriter d)) d Hd).
  - exact (IH (delegator_HeaderOp op d) Hd).
  - exact (IH (WriteHeader code d) Hd).
  - rewrite ServeHTTP_CallWrite. cbn [rw_Write delegator_writer].
    rewrite Write_unfold.
    set (r := if negb (wroteHeader d) then WriteHeader StatusOK d else d).
    assert (Hr : written r = written d)
      by (unfold r; destruct (wroteHeader d); reflexivity).
    cbn zeta. set (out := rw_Write b (ResponseWriter r)). cbn [fst snd].
    rewrite bytes_reported_cons.
    match goal with
    | |- context [ServeHTTP ?h1 ?d1] =>
        rewrite (IH _ _ d1) by (cbn; apply wrap64_range)
    end.
    cbn [written]. rewrite Hr. unfold add. rewrite wrap64_add_l.
    f_equal. lia.
Qed.

End Serve.

(** ** What the delegator records and what it passes on *)

Lemma spy_Write {W : Type} `{HttpResponseWriter W} (b : list Byte.byte)
    (s : Spy W) :
  rw_Write b s
  = (fst (rw_Write b (spy_inner s)),
     {| spy_inner := snd (rw_Write b (spy_inner s));
        spy_calls := spy_calls s ++ [CWrite b] |}).
Proof. cbn. destruct (rw_Write b (spy_inner s)). reflexivity. Qed.

Lemma last_status_cons (c : Call) (calls : list Call) (dflt : Z) :
  default dflt (last_status (c :: calls))
  = default (match c with CWriteHeader code => code | _ => dflt end)
            (last_status calls).
Proof. cbn. destruct (last_status calls), c; reflexivity. Qed.

Section Status.

Context {W : Type} `{HttpResponseWriter W}.

(** The status the delegator holds is the code of the last [WriteHeader]
    it received, counting the [WriteHeader(200)] it issues itself before
    a first write without status; with no such call it is unchanged. *)
Lemma status_follows_calls (h : Handler) :
  forall s : Spy (responseWriterDelegator W),
  exists tail,
    spy_calls (fst (ServeHTTP h s)) = spy_calls s ++ tail
    /\ status (spy_inner (fst (ServeHTTP h s)))
       = default (status (spy_inner s))
           (last_status (if wroteHeader (spy_inner s) then tail
                         else with_implicit_status tail)).
Proof.
  induction h as [|k IH|op k IH|code k IH|b k IH]; intros s.
  - exists []. rewrite app_nil_r. split; [reflexivity|].
    cbn. destruct (wroteHeader (spy_inner s)); reflexivity.
  - exact (IH (rw_Header (spy_inner s)) s).
  - destruct (IH (rw_HeaderOp op s)) as (tail & Hc & Hs).
    exists (CHeaderOp op :: tail). split.
    + cbn in *. rewrite Hc, <- app_assoc. reflexivity.
    + cbn [ServeHTTP]. rewrite Hs. cbn.
      destruct (wroteHeader (spy_inner s)); cbn;
        match goal with
        | |- context [last_status ?l] => destruct (last_status l); reflexivity
        end.
  - destruct (IH (rw_WriteHeader code s)) as (tail & Hc & Hs).
    exists (CWriteHeader code :: tail). split.
    + cbn in *. rewrite Hc, <- app_assoc. reflexivity.
    + cbn [ServeHTTP]. rewrite Hs. cbn.
      destruct (wroteHeader (spy_inner s)); cbn;
        destruct (last_status tail); reflexivity.
  - rewrite ServeHTTP_CallWrite, spy_Write. cbn zeta. cbn [fst snd].
    match goal with
    | |- context [ServeHTTP (k ?n ?e) ?s1] =>
        destruct (IH n e s1) as (tail & Hc & Hs)
    end.
    exists (CWrite b :: tail). split.
    + rewrite Hc. cbn. rewrite <- app_assoc. reflexivity.
    + rewrite Hs. cbn [spy_inner rw_Write delegator_writer].
      rewrite Write_unfold. cbn zeta. cbn [snd wroteHeader status].
      destruct (wroteHeader (spy_inner s)) eqn:Hw; cbn; rewrite ?Hw;
        destruct (last_status tail); reflexivity.
Qed.

End Status.

Section Transparency.

Context {W : Type} `{HttpResponseWriter W} (pristine : W -> Prop)
        `{!WriteImpliesStatusOK W pristine}.




End Transparency.

(** ** Labels *)

(** [Itoa] writes the decimal representation: reading it back gives the
    number. *)
Lemma Atoi_Itoa (s : Z) : Atoi (Itoa s) = Some s.
Proof.
  unfold Atoi, Itoa. rewrite NilZero.isi.
  - cbn. f_equal. apply DecimalZ.of_to.
  - destruct s; cbn; [discriminate| |discriminate].
    intros Heq. injection Heq as Heq.
    exact (Unsigned.to_uint_nonnil _ Heq).
  - destruct s; cbn; [discriminate|discriminate|].
    intros Heq. injection Heq as Heq.
    exact (Unsigned.to_uint_nonnil _ Heq).
Qed.

Lemma Itoa_inj (s t : Z) : Itoa s = Itoa t -> s = t.
Proof.
  intros Heq. apply (f_equal Atoi) in Heq.
  rewrite !Atoi_Itoa in Heq. congruence.
Qed.




(** ** Instruments *)

Lemma Inc_lookup (lvs : LabelValues) (c : CounterVec) :
  counter_value (Inc lvs c) !! lvs
  = Some (default 0 (counter_value c !! lvs) + 1)%N.
Proof. cbn. apply lookup_insert_eq. Qed.

Lemma Inc_lookup_ne (lvs lvs' : LabelValues) (c : CounterVec) :
  lvs <> lvs' ->
  counter_value (Inc lvs c) !! lvs' = counter_value c !! lvs'.
Proof. intros Hne. cbn. apply lookup_insert_ne, Hne. Qed.

Lemma Observe_lookup (lvs : LabelValues) (x : Sample) (h : HistogramVec) :
  histogram_samples (Observe lvs x h) !! lvs
  = Some (default [] (histogram_samples h !! lvs) ++ [x]).
Proof. cbn. apply lookup_insert_eq. Qed.


(** ** The wrapper on a request with a route *)

Section Routed.

Context {W : Type} `{HttpResponseWriter W}.

(** With a route in the request context the wrapper returns, and records
    one label triple in all four instruments. *)
Lemma InstrumentHandlerDuration_routed (p : PrometheusMiddleware)
    (next : Request -> Handler) (elapsed : Z) (w : W) (r : Request)
    (route : Route) :
  CurrentRoute r = Some route ->
  InstrumentHandlerDuration p next elapsed w r
  = let delegate := fst (ServeHTTP (next r) (new_delegate w)) in
    let lvs := label_values (status delegate) r route in
    Ok ({| request := Inc lvs (request p);
           latency := Observe lvs (SecondsOf elapsed) (latency p);
           reqSize :=
             Observe lvs (OfInt (computeApproximateRequestSize r)) (reqSize p);
           resSize := Observe lvs (OfInt (written delegate)) (resSize p) |},
        ResponseWriter delegate).
Proof.
  intros Hroute. unfold InstrumentHandlerDuration. rewrite Hroute.
  destruct (ServeHTTP (next r) (new_delegate w)) as [delegate results].
  unfold label_values, route_template, sanitizeCode, sanitizeMethod.
  destruct route as [[e|] [template|]]; reflexivity.
Qed.

End Routed.

(** ** The response of net/http honours the contract of [Write] *)

#[export] Instance response_WriteImpliesStatusOK :
  WriteImpliesStatusOK response (fun _ => True).
Proof.
  split; [trivial|].
  intros b w _. cbn. unfold response_Write, response_WriteHeader.
  destruct (resp_wroteHeader w) eqn:Hw; cbn; rewrite ?Hw; reflexivity.
Qed.

Lemma with_implicit_status_writes (calls : list Call) :
  filter is_write (with_implicit_status calls) = filter is_write calls.
Proof.
  induction calls as [|[op|code|b] calls IH]; cbn; try reflexivity.
  exact IH.
Qed.

Lemma last_status_with_implicit_status (calls : list Call) :
  last_status (with_implicit_status calls)
  = match last_status calls with
    | Some code => Some code
    | None => if existsb is_write calls then Some StatusOK else None
    end.
Proof.
  induction calls as [|[op|code|b] calls IH]; cbn.
  - reflexivity.
  - rewrite IH. destruct (last_status calls); [reflexivity|].
    destruct (existsb is_write calls); reflexivity.
  - destruct (last_status calls); reflexivity.
  - destruct (last_status calls); reflexivity.
Qed.

(** * Properties of the specification *)

(** ** The wrapper is transparent *)



(** ** The response size *)



(** ** The constructor *)

(** The instruments a configuration asks for: the middleware does not depend
    on what the registry holds. *)
Lemma NewPrometheusMiddleware_value (opts : Opts) (g : Globals) :
  let buckets := if (length (Buckets opts) =? 0)%nat then dflBuckets
                 else Buckets opts in
  let labels := ["code"; "method"; "path"] in
  fst (NewPrometheusMiddleware opts g)
  = {| request :=
         NewCounterVec
           {| co_Namespace := ""; co_Subsystem := Subsystem opts;
              co_Name := requestName;
              co_Help := "How many HTTP requests processed, partitioned by status code, method and HTTP path." |}
           labels;
       latency :=
         NewHistogramVec
           {| ho_Namespace := ""; ho_Subsystem := Subsystem opts;
              ho_Name := latencyName;
              ho_Help := "How long it took to process the request, partitioned by status code, method and HTTP path.";
              ho_Buckets := buckets |}
           labels;
       reqSize :=
         NewHistogramVec
           {| ho_Namespace := ""; ho_Subsystem := "";
              ho_Name := requestSizeName;
              ho_Help := "How large was the request, partitioned by status code, method and HTTP path.";
              ho_Buckets := buckets |}
           labels;
       resSize :=
         NewHistogramVec
           {| ho_Namespace := ""; ho_Subsystem := "";
              ho_Name := responseSizeName;
              ho_Help := "How large was the response, partitioned by status code, method and HTTP path.";
              ho_Buckets := buckets |}
           labels |}.
Proof.
  unfold NewPrometheusMiddleware, bind, Register, log_if_err, Println, ret.
  repeat case_bool_decide; reflexivity.
Qed.

(** ** The labels and the instruments *)



(** ** The status label *)

Section StatusLabel.

Context {W : Type} `{HttpResponseWriter W}.

(** A handler that never sets a status leaves the delegator's status
    alone until its first write, which makes it 200. *)
Lemma status_without_WriteHeader (h : Handler) :
  never_sets_status h ->
  forall d : responseWriterDelegator W,
  status (fst (ServeHTTP h d))
  = if wroteHeader d then status d
    else match snd (ServeHTTP h d) with
         | [] => status d
         | _ :: _ => StatusOK
         end.
Proof.
  induction h as [|k IH|op k IH|code k IH|b k IH]; intros Hnever d.
  - cbn. destruct (wroteHeader d); reflexivity.
  - exact (IH (rw_Header (ResponseWriter d)) (Hnever _) d).
  - exact (IH Hnever (delegator_HeaderOp op d)).
  - destruct Hnever.
  - rewrite ServeHTTP_CallWrite. cbn [rw_Write delegator_writer].
    rewrite Write_unfold. cbn zeta. cbn [fst snd].
    match goal with
    | |- context [ServeHTTP (k ?n ?e) ?d1] =>
        rewrite (IH n e (Hnever n e) d1)
    end.
    cbn [wroteHeader status].
    destruct (wroteHeader d) eqn:Hd; cbn; rewrite ?Hd; reflexivity.
Qed.

(** The default status where the code has it: no status set and at least
    one write gives the code label "200". *)
Lemma implicit_status_label (p : PrometheusMiddleware)
    (next : Request -> Handler) (elapsed : Z) (w : W) (r : Request)
    (route : Route) :
  CurrentRoute r = Some route ->
  never_sets_status (next r) ->
  snd (ServeHTTP (next r) (new_delegate w)) <> [] ->
  exists p' w',
    InstrumentHandlerDuration p next elapsed w r = Ok (p', w')
    /\ counter_value (request p')
         !! ("200", ToLower (Method r), route_template route)
       = Some (default 0
                 (counter_value (request p)
                    !! ("200", ToLower (Method r), route_template route))
               + 1)%N.
Proof.
  intros Hroute Hnever Hwrote.
  rewrite (InstrumentHandlerDuration_routed p next elapsed w r route Hroute).
  cbn zeta. eexists _, _. split; [reflexivity|]. cbn [request].
  rewrite (status_without_WriteHeader (next r) Hnever (new_delegate w)).
  cbn [wroteHeader new_delegate].
  destruct (snd (ServeHTTP (next r) (new_delegate w))); [congruence|].
  apply Inc_lookup.
Qed.

(** C2. A handler that returns without a call on its writer never sets a
    status, yet the code label recorded for it is "0", the zero value of
    the delegator's status, and not "200". *)
Theorem silent_handler_is_labelled_zero (p : PrometheusMiddleware)
    (elapsed : Z) (w : W) (r : Request) (route : Route) :
  never_sets_status Done
  /\ exists p',
       InstrumentHandlerDuration p (fun _ => Done) elapsed w
         (with_route (Some route) r) = Ok (p', w)
       /\ counter_value (request p')
            !! ("0", ToLower (Method r), route_template route)
          = Some (default 0
                    (counter_value (request p)
                       !! ("0", ToLower (Method r), route_template route))
                  + 1)%N
       /\ forall m path, counter_value (request p') !! ("200", m, path)
                         = counter_value (request p) !! ("200", m, path).
Proof.
  split; [exact I|].
  rewrite (InstrumentHandlerDuration_routed p (fun _ => Done) elapsed w
             (with_route (Some route) r) route eq_refl).
  cbn zeta. eexists. split; [reflexivity|]. cbn [request]. split.
  - apply Inc_lookup.
  - intros m path. apply Inc_lookup_ne. unfold label_values.
    intros Heq. injection Heq as Hcode _ _. vm_compute in Hcode.
    discriminate Hcode.
Qed.

(** C3. On a request whose context holds no route, the wrapper runs the
    inner handler and then panics in [GetPathTemplate], whatever the
    handler and the writer: no path label is computed, nothing is
    recorded. *)
Theorem unrouted_request_panics (p : PrometheusMiddleware)
    (next : Request -> Handler) (elapsed : Z) (w : W) (r : Request) :
  CurrentRoute (with_route None r) = None
  /\ InstrumentHandlerDuration p next elapsed w (with_route None r)
     = Panic "runtime error: invalid memory address or nil pointer dereference".
Proof.
  split; [reflexivity|].
  unfold InstrumentHandlerDuration. cbn [CurrentRoute with_route ctx_route].
  destruct (ServeHTTP (next (with_route None r)) (new_delegate w)).
  reflexivity.
Qed.

(** The path label of a routed request is the template of the route, and
    the empty string for a route without a path template; it is the same in
    all four instruments. *)
Lemma path_label_is_route_template (p : PrometheusMiddleware)
    (next : Request -> Handler) (elapsed : Z) (w : W) (r : Request)
    (route : Route) :
  CurrentRoute r = Some route ->
  (forall template,
     route_err route = None -> regexp_path route = Some template ->
     route_template route = template)
  /\ (regexp_path route = None -> route_template route = "")
  /\ exists p' w' code method,
       InstrumentHandlerDuration p next elapsed w r = Ok (p', w')
       /\ is_Some (counter_value (request p')
                     !! (code, method, route_template route))
       /\ is_Some (histogram_samples (latency p')
                     !! (code, method, route_template route))
       /\ is_Some (histogram_samples (reqSize p')
                     !! (code, method, route_template route))
       /\ is_Some (histogram_samples (resSize p')
                     !! (code, method, route_template route)).
Proof.
  intros Hroute. split; [|split].
  - intros template He Ht. unfold route_template. rewrite He, Ht. reflexivity.
  - intros Ht. unfold route_template. rewrite Ht.
    destruct (route_err route); reflexivity.
  - rewrite (InstrumentHandlerDuration_routed p next elapsed w r route Hroute).
    cbn zeta. eexists _, _, _, _. split; [reflexivity|].
    cbn [request latency reqSize resSize]. unfold label_values.
    rewrite Inc_lookup, !Observe_lookup. repeat split; eexists; reflexivity.
Qed.

(** C5, as the code has it. On every request that carries a route and
    whose handler calls [WriteHeader] at least once, the status behind the
    code label is the code of the last such call, every call replacing
    what the one before recorded, and the code label is its decimal
    representation. *)
Theorem code_label_is_last_WriteHeader (p : PrometheusMiddleware)
    (next : Request -> Handler) (elapsed : Z) (w : W) (r : Request)
    (route : Route) (code : Z) :
  CurrentRoute r = Some route ->
  last_status
    (spy_calls (fst (ServeHTTP (next r) (spy_on (new_delegate w)))))
  = Some code ->
  exists p' w',
    InstrumentHandlerDuration p next elapsed w r = Ok (p', w')
    /\ status (fst (ServeHTTP (next r) (new_delegate w))) = code
    /\ counter_value (request p')
         !! (Itoa code, ToLower (Method r), route_template route)
       = Some (default 0
                 (counter_value (request p)
                    !! (Itoa code, ToLower (Method r), route_template route))
               + 1)%N
    /\ Atoi (Itoa code) = Some code.
Proof.
  intros Hroute Hlast.
  destruct (status_follows_calls (next r) (spy_on (new_delegate w)))
    as (tail & Hcalls & Hstatus).
  destruct (spy_transparent (next r) (spy_on (new_delegate w))) as [Hinner _].
  change (spy_calls (spy_on (new_delegate w)) ++ tail) with tail in Hcalls.
  change (spy_inner (spy_on (new_delegate w))) with (new_delegate w)
    in Hstatus, Hinner.
  cbn [new_delegate wroteHeader status] in Hstatus.
  rewrite Hcalls in Hlast.
  rewrite last_status_with_implicit_status, Hlast in Hstatus.
  rewrite Hinner in Hstatus. cbn [default] in Hstatus.
  rewrite (InstrumentHandlerDuration_routed p next elapsed w r route Hroute).
  cbn zeta. eexists _, _. split; [reflexivity|]. cbn [request].
  unfold label_values. rewrite Hstatus.
  split; [reflexivity|]. split; [apply Inc_lookup|apply Atoi_Itoa].
Qed.

End StatusLabel.


(** C5, as stated, fails: a handler that calls [WriteHeader(404)] and then
    [WriteHeader(500)] made its first call with 404, and the request is
    counted under "500", not under "404". *)
Lemma first_WriteHeader_is_overwritten :
  first_status
    (spy_calls (fst (ServeHTTP (Samples.two_statuses Samples.get_metrics)
                       (spy_on (new_delegate new_response)))))
  = Some 404
  /\ exists p' w',
       InstrumentHandlerDuration Samples.middleware Samples.two_statuses 0
         new_response Samples.get_metrics = Ok (p', w')
       /\ counter_value (request p') !! (Itoa 404, "get", "/metrics") = None
       /\ counter_value (request p') !! (Itoa 500, "get", "/metrics")
          = Some 1%N
       /\ resp_status w' = 404.
Proof.
  split; [reflexivity|].
  eexists _, _. split; [reflexivity|]. repeat split.
Qed.

Lemma code_label_is_last_WriteHeader_witness :
  exists p' w',
    InstrumentHandlerDuration Samples.middleware Samples.two_statuses 0
      new_response Samples.get_metrics = Ok (p', w')
    /\ counter_value (request p') !! ("500", "get", "/metrics") = Some 1%N.
Proof.
  destruct (code_label_is_last_WriteHeader Samples.middleware
              Samples.two_statuses 0 new_response Samples.get_metrics
              Samples.metrics_route 500 eq_refl eq_refl)
    as (p' & w' & Hrun & _ & Hcount & _).
  exists p', w'. split; [exact Hrun|exact Hcount].
Defined.

(** ** The request size *)

(** C6, as the code has it. On every request that carries a route, the
    request-size histogram receives the [int] sum of the lengths of the URL
    path (nothing for a nil URL), the method, the protocol, all header
    names and values and the host, plus the content-length exactly when it
    is not [-1]; another negative content-length is added as it is. The
    sum is the plain one whenever that fits an [int]. *)
Theorem request_size_is_sum_of_lengths
    {W : Type} `{HttpResponseWriter W}
    (p : PrometheusMiddleware) (next : Request -> Handler) (elapsed : Z)
    (w : W) (r : Request) (route : Route) :
  CurrentRoute r = Some route ->
  let lvs := label_values
               (status (fst (ServeHTTP (next r) (new_delegate w)))) r route in
  let size := path_len r + len (Method r) + len (Proto r)
              + header_len (Header r) + len (Host r)
              + (if ContentLength r =? -1 then 0 else ContentLength r) in
  exists p' w',
    InstrumentHandlerDuration p next elapsed w r = Ok (p', w')
    /\ histogram_samples (reqSize p') !! lvs
       = Some (default [] (histogram_samples (reqSize p) !! lvs)
               ++ [OfInt (wrap64 size)])
    /\ (in_range size -> wrap64 size = size).
Proof.
  intros Hroute lvs size.
  rewrite (InstrumentHandlerDuration_routed p next elapsed w r route Hroute).
  cbn zeta. eexists _, _. split; [reflexivity|]. split.
  - cbn [reqSize]. fold lvs. rewrite Observe_lookup.
    rewrite computeApproximateRequestSize_sum. reflexivity.
  - apply wrap64_in_range.
Qed.

Lemma request_size_is_sum_of_lengths_witness :
  exists p' w',
    InstrumentHandlerDuration Samples.middleware Samples.three_writes 0
      new_response Samples.get_metrics = Ok (p', w')
    /\ histogram_samples (reqSize p') !! ("200", "get", "/metrics")
       = Some [OfInt 37].
Proof.
  destruct (request_size_is_sum_of_lengths Samples.middleware
              Samples.three_writes 0 new_response Samples.get_metrics
              Samples.metrics_route eq_refl) as (p' & w' & Hrun & Hsize & _).
  exists p', w'. split; [exact Hrun|]. exact Hsize.
Defined.

(** C6, as stated, fails: with a content-length of [-5], negative and not
    [-1], the sum the claim gives is 37, the lengths alone, and the sample
    observed is 32. *)
Lemma negative_content_length_is_added :
  specified_request_size Samples.get_metrics_minus5 = 37
  /\ computeApproximateRequestSize Samples.get_metrics_minus5 = 32
  /\ exists p' w',
       InstrumentHandlerDuration Samples.middleware Samples.three_writes 0
         new_response Samples.get_metrics_minus5 = Ok (p', w')
       /\ histogram_samples (reqSize p') !! ("200", "get", "/metrics")
          = Some [OfInt 32].
Proof.
  split; [reflexivity|]. split; [reflexivity|].
  eexists _, _. split; reflexivity.
Qed.

(** C10. [computeApproximateRequestSize] returns on a request whose URL is
    nil: the path contributes nothing, and the result is the sum of the
    other terms, the same as for an empty path. *)
Theorem request_size_of_nil_URL (r : Request) :
  computeApproximateRequestSize (with_URL None r)
  = wrap64 (0 + len (Method r) + len (Proto r) + header_len (Header r)
            + len (Host r)
            + (if ContentLength r =? -1 then 0 else ContentLength r))
  /\ computeApproximateRequestSize (with_URL None r)
     = computeApproximateRequestSize (with_URL (Some {| Path := "" |}) r).
Proof.
  split.
  - rewrite computeApproximateRequestSize_sum. reflexivity.
  - rewrite !computeApproximateRequestSize_sum. reflexivity.
Qed.

(** ** The registry binding *)

Lemma register_or_log_taken (msg : string) (k : Kind) (d : Desc) (g : Globals) :
  fqName d ∈ registered_names g ->
  snd (register_or_log msg k d g)
  = {| registry := registry g;
       logged := logged g ++ [(msg, AlreadyRegisteredError (fqName d))] |}.
Proof.
  intros Hin. unfold register_or_log, bind, Register.
  rewrite bool_decide_eq_true_2 by exact Hin. reflexivity.
Qed.

Lemma register_or_log_fresh (msg : string) (k : Kind) (d : Desc) (g : Globals) :
  fqName d ∉ registered_names g ->
  snd (register_or_log msg k d g)
  = {| registry := registry g ++ [(k, d)]; logged := logged g |}.
Proof.
  intros Hin. unfold register_or_log, bind, Register.
  rewrite bool_decide_eq_false_2 by exact Hin. reflexivity.
Qed.

Lemma register_or_log_mono (msg : string) (k : Kind) (d : Desc) (g : Globals)
    (name : string) :
  name ∈ registered_names g ->
  name ∈ registered_names (snd (register_or_log msg k d g)).
Proof.
  intros Hin. destruct (decide (fqName d ∈ registered_names g)) as [Hd|Hd].
  - rewrite register_or_log_taken by exact Hd. exact Hin.
  - rewrite register_or_log_fresh by exact Hd.
    unfold registered_names in *. cbn. rewrite map_app.
    apply elem_of_app. left. exact Hin.
Qed.

Lemma register_or_log_registered (msg : string) (k : Kind) (d : Desc)
    (g : Globals) :
  fqName d ∈ registered_names (snd (register_or_log msg k d g)).
Proof.
  destruct (decide (fqName d ∈ registered_names g)) as [Hd|Hd].
  - rewrite register_or_log_taken by exact Hd. exact Hd.
  - rewrite register_or_log_fresh by exact Hd.
    unfold registered_names. cbn. rewrite map_app.
    apply elem_of_app. right. cbn. apply list_elem_of_here.
Qed.

Lemma bind_register_or_log {A : Type} (msg : string) (k : Kind) (d : Desc)
    (rest : Global A) (g : Globals) :
  bind (Register k d) (fun err => bind (log_if_err msg err) (fun _ => rest)) g
  = rest (snd (register_or_log msg k d g)).
Proof.
  unfold bind, register_or_log, bind, Register, log_if_err, Println, ret.
  case_bool_decide; reflexivity.
Qed.

(** The constructor is four registrations in a row, each logged when it
    fails. *)
Lemma NewPrometheusMiddleware_registrations (opts : Opts) (g : Globals) :
  let m := fst (NewPrometheusMiddleware opts g) in
  snd (NewPrometheusMiddleware opts g)
  = snd (register_or_log "prometheusMiddleware.resSize was not registered:"
           Histogram (histogram_desc (resSize m))
        (snd (register_or_log "prometheusMiddleware.reqSize was not registered:"
           Histogram (histogram_desc (reqSize m))
        (snd (register_or_log "prometheusMiddleware.latency was not registered:"
           Histogram (histogram_desc (latency m))
        (snd (register_or_log "prometheusMiddleware.request was not registered:"
           Counter (counter_desc (request m)) g))))))).
Proof.
  cbn zeta. rewrite NewPrometheusMiddleware_value. cbn zeta.
  cbn [request latency reqSize resSize].
  unfold NewPrometheusMiddleware. cbn zeta.
  rewrite !bind_register_or_log. reflexivity.
Qed.

(** In a fresh process and without a subsystem, the constructor registers
    exactly four instruments, a counter and three histograms, each with the
    labels code, method, path. *)
Lemma plain_constructor_registers_four :
  map (fun kd => (fst kd, fqName (snd kd), variableLabels (snd kd)))
    (registry (snd (NewPrometheusMiddleware Samples.plain Samples.no_globals)))
  = [(Counter, "http_requests_total", ["code"; "method"; "path"]);
     (Histogram, "http_request_duration_seconds", ["code"; "method"; "path"]);
     (Histogram, "request_size_bytes", ["code"; "method"; "path"]);
     (Histogram, "response_size_bytes", ["code"; "method"; "path"])]
  /\ logged (snd (NewPrometheusMiddleware Samples.plain Samples.no_globals)) = [].
Proof. split; vm_compute; reflexivity. Qed.

(** C4. Whatever the configuration, the two size histograms are built
    without the subsystem: only the counter and the latency histogram carry
    it in their names. With the subsystem [sminem] the constructor registers
    [request_size_bytes] and [response_size_bytes] without prefix. *)
Theorem size_histograms_ignore_subsystem (opts : Opts) (g : Globals) :
  let m := fst (NewPrometheusMiddleware opts g) in
  (fqName (counter_desc (request m))
   = BuildFQName "" (Subsystem opts) "http_requests_total"
   /\ fqName (histogram_desc (latency m))
      = BuildFQName "" (Subsystem opts) "http_request_duration_seconds"
   /\ fqName (histogram_desc (reqSize m)) = "request_size_bytes"
   /\ fqName (histogram_desc (resSize m)) = "response_size_bytes")
  /\ registered_names
       (snd (NewPrometheusMiddleware Samples.sminem Samples.no_globals))
     = ["sminem_http_requests_total"; "sminem_http_request_duration_seconds";
        "request_size_bytes"; "response_size_bytes"].
Proof.
  cbn zeta. rewrite NewPrometheusMiddleware_value. cbn zeta. split.
  - repeat split.
  - vm_compute. reflexivity.
Qed.

(** C8. The constructor returns the same four instruments whatever the
    registry holds, so whichever registrations fail. Building the
    middleware again with the same configuration, when all four names are
    taken, neither panics nor aborts: it returns those instruments, leaves
    the registry as it is, and logs one line for each instrument, with the
    duplicate-name error. The middleware it returns records requests like
    any other. *)
Theorem duplicate_registration_is_logged (opts : Opts) (g : Globals) :
  let first := NewPrometheusMiddleware opts g in
  let second := NewPrometheusMiddleware opts (snd first) in
  (forall g', fst (NewPrometheusMiddleware opts g') = fst first)
  /\ fst second = fst first
  /\ registry (snd second) = registry (snd first)
  /\ logged (snd second)
     = logged (snd first)
       ++ [("prometheusMiddleware.request was not registered:",
            AlreadyRegisteredError
              (BuildFQName "" (Subsystem opts) "http_requests_total"));
           ("prometheusMiddleware.latency was not registered:",
            AlreadyRegisteredError
              (BuildFQName "" (Subsystem opts) "http_request_duration_seconds"));
           ("prometheusMiddleware.reqSize was not registered:",
            AlreadyRegisteredError "request_size_bytes");
           ("prometheusMiddleware.resSize was not registered:",
            AlreadyRegisteredError "response_size_bytes")]
  /\ forall (next : Request -> Handler) (elapsed : Z) (w : response)
            (r : Request) (route : Route),
       exists p' w',
         InstrumentHandlerDuration (fst second) next elapsed w
           (with_route (Some route) r) = Ok (p', w').
Proof.
  intros first second.
  assert (Hvalue : fst second = fst first).
  { unfold second, first. rewrite !NewPrometheusMiddleware_value. reflexivity. }
  split.
  { intros g'. unfold first. rewrite !NewPrometheusMiddleware_value.
    reflexivity. }
  split; [exact Hvalue|].
  assert (Hstate : snd second
    = {| registry := registry (snd first);
         logged := logged (snd first)
           ++ [("prometheusMiddleware.request was not registered:",
                AlreadyRegisteredError
                  (BuildFQName "" (Subsystem opts) "http_requests_total"));
               ("prometheusMiddleware.latency was not registered:",
                AlreadyRegisteredError
                  (BuildFQName "" (Subsystem opts) "http_request_duration_seconds"));
               ("prometheusMiddleware.reqSize was not registered:",
                AlreadyRegisteredError "request_size_bytes");
               ("prometheusMiddleware.resSize was not registered:",
                AlreadyRegisteredError "response_size_bytes")] |}).
  { unfold second. rewrite NewPrometheusMiddleware_registrations. cbn zeta.
    fold second. rewrite Hvalue.
    pose proof (NewPrometheusMiddleware_registrations opts g) as Hfirst.
    cbn zeta in Hfirst. fold first in Hfirst.
    set (m := fst first) in *.
    assert (H1 : fqName (counter_desc (request m)) ∈ registered_names (snd first)).
    { rewrite Hfirst. do 3 apply register_or_log_mono.
      apply register_or_log_registered. }
    assert (H2 : fqName (histogram_desc (latency m)) ∈ registered_names (snd first)).
    { rewrite Hfirst. do 2 apply register_or_log_mono.
      apply register_or_log_registered. }
    assert (H3 : fqName (histogram_desc (reqSize m)) ∈ registered_names (snd first)).
    { rewrite Hfirst. apply register_or_log_mono.
      apply register_or_log_registered. }
    assert (H4 : fqName (histogram_desc (resSize m)) ∈ registered_names (snd first)).
    { rewrite Hfirst. apply register_or_log_registered. }
    clear Hfirst.
    rewrite (register_or_log_taken _ Counter (counter_desc (request m)))
      by exact H1.
    rewrite (register_or_log_taken _ Histogram (histogram_desc (latency m)))
      by exact H2.
    rewrite (register_or_log_taken _ Histogram (histogram_desc (reqSize m)))
      by exact H3.
    rewrite (register_or_log_taken _ Histogram (histogram_desc (resSize m)))
      by exact H4.
    cbn [registry logged]. rewrite <- !app_assoc. cbn [app].
    unfold m, first. rewrite NewPrometheusMiddleware_value. reflexivity. }
  rewrite Hstate. cbn [registry logged]. split; [reflexivity|].
  split; [reflexivity|].
  intros next elapsed w r route.
  rewrite (InstrumentHandlerDuration_routed (fst second) next elapsed w
             (with_route (Some route) r) route eq_refl).
  cbn zeta. eexists _, _. reflexivity.
Qed.

(** For the silent handler net/http answers 200 all the same: the label "0"
    is not the status the client got. *)
Lemma silent_handler_response_is_200 :
  exists p' w',
    InstrumentHandlerDuration Samples.middleware Samples.silent 0
      new_response Samples.get_metrics = Ok (p', w')
    /\ resp_status (finishRequest w') = 200
    /\ counter_value (request p') !! ("0", "get", "/metrics") = Some 1%N
    /\ counter_value (request p') !! ("200", "get", "/metrics") = None.
Proof. eexists _, _. split; [reflexivity|]. repeat split. Qed.

(** Three writes of 10, 20 and 5 bytes are observed as 35; a write that
    net/http refuses, after a 204, counts for the 0 bytes it reported. *)
Lemma three_writes_are_observed_as_35 :
  snd (ServeHTTP (Samples.three_writes Samples.get_metrics)
         (new_delegate new_response))
  = [(10, None); (20, None); (5, None)]
  /\ written (fst (ServeHTTP (Samples.three_writes Samples.get_metrics)
                    (new_delegate new_response))) = 35
  /\ written (fst (ServeHTTP
                    (CallWriteHeader 204
                       (CallWrite (Samples.zeros 10) (fun _ _ => Done)))
                    (new_delegate new_response))) = 0.
Proof. repeat split. Qed.

(** Two middlewares with different subsystems: the second registers its
    counter and its latency histogram, and its two size histograms collide
    with those of the first, one log line each. *)
Lemma subsystems_collide_on_size_histograms :
  let first := NewPrometheusMiddleware Samples.sminem Samples.no_globals in
  let second := NewPrometheusMiddleware Samples.plain (snd first) in
  registered_names (snd second)
  = ["sminem_http_requests_total"; "sminem_http_request_duration_seconds";
     "request_size_bytes"; "response_size_bytes";
     "http_requests_total"; "http_request_duration_seconds"]
  /\ logged (snd second)
     = [("prometheusMiddleware.reqSize was not registered:",
         AlreadyRegisteredError "request_size_bytes");
        ("prometheusMiddleware.resSize was not registered:",
         AlreadyRegisteredError "response_size_bytes")].
Proof. split; vm_compute; reflexivity. Qed.

(** * Further properties of the code *)

(** ** The labels *)

(** X1. The code label determines the status: read back as a decimal
    number it gives the status code, so two different codes never share a
    label. *)
Theorem code_label_reads_back (s : Z) :
  Atoi (sanitizeCode s) = Some s
  /\ forall t, sanitizeCode s = sanitizeCode t -> s = t.
Proof.
  unfold sanitizeCode. split; [apply Atoi_Itoa|].
  intros t Heq. apply Itoa_inj, Heq.
Qed.




(** ** The request size, header by header *)

Lemma add_header_closed (name : string) (values : list string) (s : Z) :
  add_header name values s = wrap64 (s + (len name + values_len values)).
Proof.
  unfold add_header, add. rewrite add_values_sum. f_equal. lia.
Qed.

Lemma header_loop_in_order (order : list (string * list string)) :
  forall s,
  foldl (fun s nv => add_header (fst nv) (snd nv) s) (wrap64 s) order
  = wrap64 (s + entries_len order).
Proof.
  induction order as [|[name values] order IH]; intros s;
    cbn [foldl fst snd entries_len foldr].
  - f_equal. lia.
  - rewrite add_header_closed, wrap64_add_l, IH. f_equal.
    fold (entries_len order). lia.
Qed.

Lemma entries_len_Permutation (l l' : list (string * list string)) :
  l ≡ₚ l' -> entries_len l = entries_len l'.
Proof.
  unfold entries_len.
  induction 1 as [|x l l' _ IH|x y l|l l' l'' _ IH1 _ IH2]; cbn.
  - reflexivity.
  - rewrite IH. reflexivity.
  - lia.
  - congruence.
Qed.

Lemma header_len_entries (h : gmap string (list string)) :
  header_len h = entries_len (map_to_list h).
Proof.
  unfold header_len, entries_len. rewrite map_fold_foldr.
  induction (map_to_list h) as [|[name values] l IH]; cbn; [reflexivity|].
  rewrite IH. reflexivity.
Qed.

Lemma header_len_insert (h : gmap string (list string)) (name : string)
    (values : list string) :
  h !! name = None ->
  header_len (<[name := values]> h)
  = len name + values_len values + header_len h.
Proof.
  intros Hfresh. unfold header_len.
  rewrite map_fold_insert_L; [reflexivity| |exact Hfresh].
  intros. lia.
Qed.

Lemma computeApproximateRequestSize_in_order_sum
    (order : list (string * list string)) (r : Request) :
  computeApproximateRequestSize_in_order order r
  = wrap64 (path_len r + len (Method r) + len (Proto r) + entries_len order
            + len (Host r) + content_term r).
Proof.
  unfold computeApproximateRequestSize_in_order, content_term, path_len.
  set (p := match URL r with Some u => len (Path u) | None => 0 end).
  assert (Hloop :
    foldl (fun s nv => add_header (fst nv) (snd nv) s)
      (add (add p (len (Method r))) (len (Proto r))) order
    = wrap64 (p + len (Method r) + len (Proto r) + entries_len order)).
  { unfold add. rewrite wrap64_add_l. apply header_loop_in_order. }
  rewrite Hloop, !add_wrap_l.
  destruct (ContentLength r =? -1); f_equal; lia.
Qed.

(** X3. The size does not depend on the order in which the loop over the
    header map visits its entries: every order that visits each entry once
    gives the size that [computeApproximateRequestSize] returns. *)
Theorem request_size_ignores_header_order
    (order : list (string * list string)) (r : Request) :
  order ≡ₚ map_to_list (Header r) ->
  computeApproximateRequestSize_in_order order r
  = computeApproximateRequestSize r.
Proof.
  intros Hperm.
  rewrite computeApproximateRequestSize_in_order_sum,
    computeApproximateRequestSize_sum.
  unfold base_size. rewrite header_len_entries.
  rewrite (entries_len_Permutation _ _ Hperm). reflexivity.
Qed.

Lemma request_size_ignores_header_order_witness :
  computeApproximateRequestSize_in_order
    (reverse (map_to_list (Header Cases.post_user))) Cases.post_user
  = computeApproximateRequestSize Cases.post_user.
Proof.
  apply (request_size_ignores_header_order
           (reverse (map_to_list (Header Cases.post_user))) Cases.post_user).
  apply reverse_Permutation.
Defined.

(** X4. An unknown content-length counts like an empty body: the size is
    the same for a content-length of [-1] and of [0]. *)
Theorem unknown_content_length_counts_as_zero (r : Request) :
  computeApproximateRequestSize (with_ContentLength (-1) r)
  = computeApproximateRequestSize (with_ContentLength 0 r).
Proof.
  rewrite !computeApproximateRequestSize_sum. f_equal.
Qed.

(** X5. For a content-length of at least [-1] and a sum that fits an [int],
    the size is not negative, and it is at least the content-length and at
    least the lengths of method, protocol and host together. *)
Theorem request_size_bounds (r : Request) :
  -1 <= ContentLength r ->
  in_range (base_size r + content_term r) ->
  0 <= computeApproximateRequestSize r
  /\ ContentLength r <= computeApproximateRequestSize r
  /\ len (Method r) + len (Proto r) + len (Host r)
     <= computeApproximateRequestSize r.
Proof.
  intros Hcl Hfit.
  rewrite computeApproximateRequestSize_sum, (wrap64_in_range _ Hfit).
  unfold base_size, content_term, path_len.
  pose proof (len_nonneg (Method r)). pose proof (len_nonneg (Proto r)).
  pose proof (len_nonneg (Host r)). pose proof (header_len_nonneg (Header r)).
  assert (0 <= match URL r with Some u => len (Path u) | None => 0 end)
    by (destruct (URL r); [apply len_nonneg|lia]).
  destruct (Z.eqb_spec (ContentLength r) (-1)); lia.
Qed.

Lemma request_size_bounds_witness :
  0 <= computeApproximateRequestSize Cases.post_user
  /\ 12 <= computeApproximateRequestSize Cases.post_user
  /\ 4 + 8 + 9 <= computeApproximateRequestSize Cases.post_user.
Proof.
  apply (request_size_bounds Cases.post_user).
  - cbn. lia.
  - vm_compute. split; discriminate.
Defined.

(** X6. A header under a name the request does not have yet adds the length
    of its name and of its values to the size, in [int] arithmetic. *)
Theorem new_header_adds_its_length (r : Request) (name : string)
    (values : list string) :
  Header r !! name = None ->
  computeApproximateRequestSize (with_Header (<[name := values]> (Header r)) r)
  = wrap64 (computeApproximateRequestSize r + (len name + values_len values)).
Proof.
  intros Hfresh. rewrite !computeApproximateRequestSize_sum, wrap64_add_l.
  unfold base_size. cbn [Header with_Header Method Proto Host].
  rewrite (header_len_insert _ _ _ Hfresh). f_equal.
  unfold path_len, content_term. cbn [URL ContentLength with_Header]. lia.
Qed.

Lemma new_header_adds_its_length_witness :
  computeApproximateRequestSize
    (with_Header (<["X-Id" := ["7"; "8"]]> (Header Cases.post_user))
       Cases.post_user)
  = wrap64 (computeApproximateRequestSize Cases.post_user + (4 + 2)).
Proof.
  apply (new_header_adds_its_length Cases.post_user "X-Id" ["7"; "8"]).
  vm_compute. reflexivity.
Defined.

(** ** The delegator, for every writer *)

Section DelegatorTrace.

Context {W : Type} `{HttpResponseWriter W}.

(** With one spy before the delegator and one behind it: what the second
    sees, from what the first sees. *)
Lemma calls_behind_delegator (h : Handler) :
  forall s : Spy (responseWriterDelegator (Spy W)),
  exists tail,
    spy_calls (fst (ServeHTTP h s)) = spy_calls s ++ tail
    /\ spy_calls (ResponseWriter (spy_inner (fst (ServeHTTP h s))))
       = spy_calls (ResponseWriter (spy_inner s))
         ++ (if wroteHeader (spy_inner s) then tail
             else with_implicit_status tail).
Proof.
  induction h as [|k IH|op k IH|code k IH|b k IH]; intros s.
  - exists []. cbn. destruct (wroteHeader (spy_inner s));
      rewrite !app_nil_r; split; reflexivity.
  - exact (IH (rw_Header (spy_inner s)) s).
  - destruct (IH (rw_HeaderOp op s)) as (tail & Habove & Hbelow).
    exists (CHeaderOp op :: tail). cbn [ServeHTTP]. split.
    + rewrite Habove. cbn. rewrite <- app_assoc. reflexivity.
    + rewrite Hbelow. cbn.
      destruct (wroteHeader (spy_inner s)); cbn;
        rewrite <- app_assoc; reflexivity.
  - destruct (IH (rw_WriteHeader code s)) as (tail & Habove & Hbelow).
    exists (CWriteHeader code :: tail). cbn [ServeHTTP]. split.
    + rewrite Habove. cbn. rewrite <- app_assoc. reflexivity.
    + rewrite Hbelow. cbn.
      destruct (wroteHeader (spy_inner s)); cbn;
        rewrite <- app_assoc; reflexivity.
  - rewrite ServeHTTP_CallWrite, spy_Write. cbn zeta. cbn [fst snd].
    match goal with
    | |- context [ServeHTTP (k ?n ?e) ?s1] =>
        destruct (IH n e s1) as (tail & Habove & Hbelow)
    end.
    exists (CWrite b :: tail). split.
    + rewrite Habove. cbn. rewrite <- app_assoc. reflexivity.
    + rewrite Hbelow. cbn [spy_inner spy_calls rw_Write delegator_writer].
      rewrite Write_unfold. cbn zeta. cbn [snd ResponseWriter wroteHeader].
      rewrite spy_Write. cbn [snd spy_calls].
      destruct (wroteHeader (spy_inner s)) eqn:Hw; cbn; rewrite ?Hw;
        rewrite <- ?app_assoc; reflexivity.
Qed.

(** X7. For every writer, whether or not it honours any contract, the
    delegator passes each call of the handler on unchanged and in order,
    and adds one call of its own at most: a [WriteHeader(200)] before the
    first [Write] when no [WriteHeader] came earlier. *)
Theorem delegator_passes_every_call_on (h : Handler) (w : W) :
  let served := fst (ServeHTTP h (spy_on (new_delegate (spy_on w)))) in
  spy_calls (ResponseWriter (spy_inner served))
  = with_implicit_status (spy_calls served)
  /\ filter is_write (spy_calls (ResponseWriter (spy_inner served)))
     = filter is_write (spy_calls served).
Proof.
  cbn zeta.
  destruct (calls_behind_delegator h (spy_on (new_delegate (spy_on w))))
    as (tail & Habove & Hbelow).
  change (spy_calls (spy_on (new_delegate (spy_on w))) ++ tail) with tail
    in Habove.
  change (spy_calls (ResponseWriter (spy_inner (spy_on (new_delegate (spy_on w))))))
    with (@nil Call) in Hbelow.
  change (wroteHeader (spy_inner (spy_on (new_delegate (spy_on w)))))
    with false in Hbelow.
  cbn [app] in Hbelow. rewrite Hbelow, Habove.
  split; [reflexivity|apply with_implicit_status_writes].
Qed.

(** What decides [wroteHeader], and what stays until it is set. *)
Lemma wroteHeader_after (h : Handler) :
  forall s : Spy (responseWriterDelegator W),
  exists tail,
    spy_calls (fst (ServeHTTP h s)) = spy_calls s ++ tail
    /\ wroteHeader (spy_inner (fst (ServeHTTP h s)))
       = wroteHeader (spy_inner s)
         || existsb (fun c => negb (is_header_op c)) tail
    /\ (wroteHeader (spy_inner (fst (ServeHTTP h s))) = false ->
        status (spy_inner (fst (ServeHTTP h s))) = status (spy_inner s)
        /\ written (spy_inner (fst (ServeHTTP h s))) = written (spy_inner s)).
Proof.
  induction h as [|k IH|op k IH|code k IH|b k IH]; intros s.
  - exists []. cbn. rewrite app_nil_r, orb_false_r. repeat split.
  - exact (IH (rw_Header (spy_inner s)) s).
  - destruct (IH (rw_HeaderOp op s)) as (tail & Hcalls & Hwrote & Hkept).
    exists (CHeaderOp op :: tail). cbn [ServeHTTP]. split; [|split].
    + rewrite Hcalls. cbn. rewrite <- app_assoc. reflexivity.
    + rewrite Hwrote. reflexivity.
    + exact Hkept.
  - destruct (IH (rw_WriteHeader code s)) as (tail & Hcalls & Hwrote & Hkept).
    exists (CWriteHeader code :: tail). cbn [ServeHTTP]. split; [|split].
    + rewrite Hcalls. cbn. rewrite <- app_assoc. reflexivity.
    + rewrite Hwrote. cbn. rewrite orb_true_r. reflexivity.
    + rewrite Hwrote. cbn. discriminate.
  - rewrite ServeHTTP_CallWrite, spy_Write. cbn zeta. cbn [fst snd].
    match goal with
    | |- context [ServeHTTP (k ?n ?e) ?s1] =>
        destruct (IH n e s1) as (tail & Hcalls & Hwrote & Hkept)
    end.
    assert (Hnow : wroteHeader (snd (rw_Write b (spy_inner s))) = true).
    { cbn [rw_Write delegator_writer]. rewrite Write_unfold. cbn.
      destruct (wroteHeader (spy_inner s)) eqn:Hw; cbn; rewrite ?Hw;
        reflexivity. }
    cbn [spy_inner] in Hwrote. rewrite Hnow in Hwrote.
    exists (CWrite b :: tail). split; [|split].
    + rewrite Hcalls. cbn. rewrite <- app_assoc. reflexivity.
    + rewrite Hwrote. cbn. rewrite orb_true_r. reflexivity.
    + rewrite Hwrote. cbn. discriminate.
Qed.

(** X8. After a handler ran on a fresh delegator, [wroteHeader] tells
    whether the handler called [WriteHeader] or [Write] at all; as long as
    it is false, the status and the byte count are still 0. *)
Theorem wroteHeader_tells_status_or_write (h : Handler) (w : W) :
  let served := fst (ServeHTTP h (spy_on (new_delegate w))) in
  wroteHeader (spy_inner served)
  = existsb (fun c => negb (is_header_op c)) (spy_calls served)
  /\ (wroteHeader (spy_inner served) = false ->
      status (spy_inner served) = 0 /\ written (spy_inner served) = 0).
Proof.
  cbn zeta.
  destruct (wroteHeader_after h (spy_on (new_delegate w)))
    as (tail & Hcalls & Hwrote & Hkept).
  change (spy_calls (spy_on (new_delegate w)) ++ tail) with tail in Hcalls.
  rewrite Hcalls. split; [exact Hwrote|exact Hkept].
Qed.

(** Without a write before the status, a fresh delegator needs nothing
    from its writer. *)
Lemma status_first_forwards (h : Handler) :
  sets_status_first h ->
  forall d : responseWriterDelegator W,
  ResponseWriter (fst (ServeHTTP h d)) = fst (ServeHTTP h (ResponseWriter d))
  /\ snd (ServeHTTP h d) = snd (ServeHTTP h (ResponseWriter d)).
Proof.
  induction h as [|k IH|op k IH|code k IH|b k IH]; intros Hfirst d.
  - split; reflexivity.
  - exact (IH (rw_Header (ResponseWriter d)) (Hfirst _) d).
  - exact (IH Hfirst (delegator_HeaderOp op d)).
  - exact (delegator_forwards k (WriteHeader code d) eq_refl).
  - destruct Hfirst.
Qed.

(** X9. A handler that calls [WriteHeader] before it writes sees no
    difference through the wrapper's delegator, on any writer: the writer
    ends in the same state and the writes return the same results. *)
Theorem status_first_handler_is_unaffected (h : Handler) (w : W) :
  sets_status_first h ->
  ResponseWriter (fst (ServeHTTP h (new_delegate w))) = fst (ServeHTTP h w)
  /\ snd (ServeHTTP h (new_delegate w)) = snd (ServeHTTP h w).
Proof.
  intros Hfirst. exact (status_first_forwards h Hfirst (new_delegate w)).
Qed.

(** What the writes reported, against what they were given. *)
Lemma reported_within_offered (h : Handler) :
  counts_within_slice W ->
  forall s : Spy (responseWriterDelegator W),
  exists tail,
    spy_calls (fst (ServeHTTP h s)) = spy_calls s ++ tail
    /\ 0 <= bytes_reported (snd (ServeHTTP h s)) <= offered tail.
Proof.
  intros Hcount.
  induction h as [|k IH|op k IH|code k IH|b k IH]; intros s.
  - exists []. cbn. rewrite app_nil_r. split; [reflexivity|lia].
  - exact (IH (rw_Header (spy_inner s)) s).
  - destruct (IH (rw_HeaderOp op s)) as (tail & Hcalls & Hsum).
    exists (CHeaderOp op :: tail). cbn [ServeHTTP]. split; [|exact Hsum].
    rewrite Hcalls. cbn. rewrite <- app_assoc. reflexivity.
  - destruct (IH (rw_WriteHeader code s)) as (tail & Hcalls & Hsum).
    exists (CWriteHeader code :: tail). cbn [ServeHTTP]. split; [|exact Hsum].
    rewrite Hcalls. cbn. rewrite <- app_assoc. reflexivity.
  - rewrite ServeHTTP_CallWrite, spy_Write.
    cbn [rw_Write delegator_writer]. rewrite Write_unfold.
    cbn zeta. cbn [fst snd].
    match goal with
    | |- context [ServeHTTP (k ?n ?e) ?s1] =>
        destruct (IH n e s1) as (tail & Hcalls & Hsum)
    end.
    exists (CWrite b :: tail). split.
    + rewrite Hcalls. cbn. rewrite <- app_assoc. reflexivity.
    + rewrite bytes_reported_cons. cbn [fst offered foldr].
      fold (offered tail).
      match goal with
      | |- context [rw_Write b ?w1] => pose proof (Hcount b w1) as Hn
      end.
      lia.
Qed.

(** X10. On a writer that reports, for each [Write], a count between 0 and
    the length of the slice, the byte count of the delegator is not
    negative and at most the bytes the handler offered; it is the plain sum
    of the counts whenever the offered bytes fit an [int64]. *)
Theorem written_at_most_offered (h : Handler) (w : W) :
  counts_within_slice W ->
  let served := ServeHTTP h (spy_on (new_delegate w)) in
  0 <= bytes_reported (snd served) <= offered (spy_calls (fst served))
  /\ (in_range (offered (spy_calls (fst served))) ->
      written (spy_inner (fst served)) = bytes_reported (snd served)
      /\ 0 <= written (spy_inner (fst served))
         <= offered (spy_calls (fst served))).
Proof.
  intros Hcount served.
  destruct (reported_within_offered h Hcount (spy_on (new_delegate w)))
    as (tail & Hcalls & Hsum).
  change (spy_calls (spy_on (new_delegate w)) ++ tail) with tail in Hcalls.
  fold served in Hcalls, Hsum. rewrite Hcalls.
  split; [exact Hsum|]. intros Hfit.
  destruct (spy_transparent h (spy_on (new_delegate w))) as [Hinner Hresults].
  change (spy_inner (spy_on (new_delegate w))) with (new_delegate w)
    in Hinner, Hresults.
  fold served in Hinner, Hresults.
  assert (Hwritten : written (spy_inner (fst served))
                     = bytes_reported (snd served)).
  { rewrite Hinner, Hresults, (written_sum h (new_delegate w)).
    - cbn [written new_delegate]. rewrite Z.add_0_l.
      apply wrap64_in_range. rewrite <- Hresults.
      unfold in_range, min_int, max_int in *. lia.
    - cbn. unfold in_range, min_int, max_int. lia. }
  rewrite Hwritten. split; [reflexivity|exact Hsum].
Qed.

End DelegatorTrace.

Lemma status_first_handler_is_unaffected_witness :
  ResponseWriter
    (fst (ServeHTTP (Cases.created Cases.post_user)
            (new_delegate (spy_on new_response))))
  = fst (ServeHTTP (Cases.created Cases.post_user) (spy_on new_response)).
Proof.
  exact (proj1 (status_first_handler_is_unaffected
                  (Cases.created Cases.post_user) (spy_on new_response) I)).
Defined.

Lemma response_counts_within_slice : counts_within_slice response.
Proof.
  intros b w. cbn. unfold response_Write.
  destruct (bodyAllowedForStatus _); cbn; lia.
Qed.

Lemma written_at_most_offered_witness :
  0 <= bytes_reported
         (snd (ServeHTTP (Samples.three_writes Samples.get_metrics)
                 (spy_on (new_delegate new_response))))
    <= offered
         (spy_calls
            (fst (ServeHTTP (Samples.three_writes Samples.get_metrics)
                    (spy_on (new_delegate new_response))))).
Proof.
  exact (proj1 (written_at_most_offered
                  (Samples.three_writes Samples.get_metrics) new_response
                  response_counts_within_slice)).
Defined.

(** ** The wrapper, request after request *)

Lemma total_count_Inc (lvs : LabelValues) (c : CounterVec) :
  total_count (Inc lvs c) = (total_count c + 1)%N.
Proof.
  unfold total_count. cbn [Inc counter_value].
  assert (Hcomm : forall (m : gmap LabelValues N)
            (j1 j2 : LabelValues) (z1 z2 y : N),
            j1 <> j2 -> m !! j1 = Some z1 -> m !! j2 = Some z2 ->
            (z1 + (z2 + y))%N = (z2 + (z1 + y))%N) by (intros; lia).
  destruct (counter_value c !! lvs) as [v|] eqn:Hv; cbn [from_option id].
  - rewrite <- (insert_delete_eq (counter_value c)).
    rewrite map_fold_insert_L;
      [|apply Hcomm|apply lookup_delete_eq].
    rewrite (map_fold_delete_L _ _ lvs v (counter_value c));
      [|apply Hcomm|exact Hv].
    lia.
  - rewrite map_fold_insert_L; [|apply Hcomm|exact Hv]. lia.
Qed.

Section Requests.

Context {W : Type} `{HttpResponseWriter W}.

(** X11. On every request that carries a route, the code label is decided
    by the calls of the inner handler alone: it is the code of its last
    [WriteHeader], or else "200" if it wrote, or else "0". *)
Theorem code_label_follows_calls (p : PrometheusMiddleware)
    (next : Request -> Handler) (elapsed : Z) (w : W) (r : Request)
    (route : Route) :
  CurrentRoute r = Some route ->
  let calls :=
    spy_calls (fst (ServeHTTP (next r) (spy_on (new_delegate w)))) in
  let lvs := (Itoa (status_of_calls calls), ToLower (Method r),
              route_template route) in
  exists p' w',
    InstrumentHandlerDuration p next elapsed w r = Ok (p', w')
    /\ counter_value (request p') !! lvs
       = Some (default 0 (counter_value (request p) !! lvs) + 1)%N.
Proof.
  intros Hroute calls lvs.
  destruct (status_follows_calls (next r) (spy_on (new_delegate w)))
    as (tail & Hcalls & Hstatus).
  destruct (spy_transparent (next r) (spy_on (new_delegate w))) as [Hinner _].
  change (spy_calls (spy_on (new_delegate w)) ++ tail) with tail in Hcalls.
  change (spy_inner (spy_on (new_delegate w))) with (new_delegate w)
    in Hstatus, Hinner.
  cbn [new_delegate wroteHeader status] in Hstatus.
  rewrite Hinner, last_status_with_implicit_status in Hstatus.
  assert (Hst : status (fst (ServeHTTP (next r) (new_delegate w)))
                = status_of_calls calls).
  { rewrite Hstatus. unfold status_of_calls, calls. rewrite Hcalls.
    destruct (last_status tail); [reflexivity|].
    destruct (existsb is_write tail); reflexivity. }
  rewrite (InstrumentHandlerDuration_routed p next elapsed w r route Hroute).
  cbn zeta. eexists _, _. split; [reflexivity|]. cbn [request].
  unfold label_values. rewrite Hst. apply Inc_lookup.
Qed.


(** X13. Two requests served one after the other: when their label triples
    are equal they fall into one series, whose counter grows by 2 and whose
    latency histogram gets the two samples in order; when the triples
    differ, each series grows by 1. *)
Theorem requests_accumulate_by_labels (p : PrometheusMiddleware)
    (next1 next2 : Request -> Handler) (elapsed1 elapsed2 : Z)
    (w1 w2 : W) (r1 r2 : Request) (route1 route2 : Route) :
  CurrentRoute r1 = Some route1 ->
  CurrentRoute r2 = Some route2 ->
  let lvs1 := label_values
                (status (fst (ServeHTTP (next1 r1) (new_delegate w1))))
                r1 route1 in
  let lvs2 := label_values
                (status (fst (ServeHTTP (next2 r2) (new_delegate w2))))
                r2 route2 in
  exists p1 w1' p2 w2',
    InstrumentHandlerDuration p next1 elapsed1 w1 r1 = Ok (p1, w1')
    /\ InstrumentHandlerDuration p1 next2 elapsed2 w2 r2 = Ok (p2, w2')
    /\ (lvs1 = lvs2 ->
        counter_value (request p2) !! lvs1
        = Some (default 0 (counter_value (request p) !! lvs1) + 2)%N
        /\ histogram_samples (latency p2) !! lvs1
           = Some (default [] (histogram_samples (latency p) !! lvs1)
                   ++ [SecondsOf elapsed1; SecondsOf elapsed2]))
    /\ (lvs1 <> lvs2 ->
        counter_value (request p2) !! lvs1
        = Some (default 0 (counter_value (request p) !! lvs1) + 1)%N
        /\ counter_value (request p2) !! lvs2
           = Some (default 0 (counter_value (request p) !! lvs2) + 1)%N).
Proof.
  intros Hroute1 Hroute2 lvs1 lvs2.
  rewrite (InstrumentHandlerDuration_routed p next1 elapsed1 w1 r1 route1
             Hroute1).
  cbn zeta. fold lvs1. eexists _, _. 
  rewrite (InstrumentHandlerDuration_routed _ next2 elapsed2 w2 r2 route2
             Hroute2).
  cbn zeta. fold lvs2. eexists _, _.
  split; [reflexivity|]. split; [reflexivity|].
  cbn [request latency]. split.
  - intros Heq. rewrite <- Heq. rewrite Inc_lookup, Inc_lookup.
    rewrite Observe_lookup, Observe_lookup. cbn [from_option id]. split.
    + f_equal. lia.
    + rewrite <- app_assoc. reflexivity.
  - intros Hne. split.
    + rewrite Inc_lookup_ne by congruence. apply Inc_lookup.
    + rewrite Inc_lookup. rewrite Inc_lookup_ne by exact Hne. reflexivity.
Qed.

(** X15. Every request that carries a route is counted once: the total of
    the counter over all its series grows by exactly 1. *)
Theorem every_request_is_counted_once (p : PrometheusMiddleware)
    (next : Request -> Handler) (elapsed : Z) (w : W) (r : Request)
    (route : Route) :
  CurrentRoute r = Some route ->
  exists p' w',
    InstrumentHandlerDuration p next elapsed w r = Ok (p', w')
    /\ total_count (request p') = (total_count (request p) + 1)%N.
Proof.
  intros Hroute.
  rewrite (InstrumentHandlerDuration_routed p next elapsed w r route Hroute).
  cbn zeta. eexists _, _. split; [reflexivity|]. cbn [request].
  apply total_count_Inc.
Qed.

End Requests.


Lemma code_label_follows_calls_witness :
  exists p' w',
    InstrumentHandlerDuration Samples.middleware Cases.created 0 new_response
      Cases.post_user = Ok (p', w')
    /\ counter_value (request p') !! ("201", "post", "/users") = Some 1%N.
Proof.
  exact (code_label_follows_calls Samples.middleware Cases.created 0
           new_response Cases.post_user
           {| route_err := None; regexp_path := Some "/users" |} eq_refl).
Defined.

Lemma requests_accumulate_by_labels_witness :
  exists p1 w1' p2 w2',
    InstrumentHandlerDuration Samples.middleware Samples.three_writes 3
      new_response Samples.get_metrics = Ok (p1, w1')
    /\ InstrumentHandlerDuration p1 Samples.three_writes 4 new_response
         Samples.get_metrics = Ok (p2, w2')
    /\ counter_value (request p2) !! ("200", "get", "/metrics") = Some 2%N
    /\ histogram_samples (latency p2) !! ("200", "get", "/metrics")
       = Some [SecondsOf 3; SecondsOf 4].
Proof.
  destruct (requests_accumulate_by_labels Samples.middleware
              Samples.three_writes Samples.three_writes 3 4
              new_response new_response Samples.get_metrics Samples.get_metrics
              Samples.metrics_route Samples.metrics_route eq_refl eq_refl)
    as (p1 & w1' & p2 & w2' & Hrun1 & Hrun2 & Hsame & _).
  exists p1, w1', p2, w2'. split; [exact Hrun1|]. split; [exact Hrun2|].
  exact (Hsame eq_refl).
Defined.

Lemma every_request_is_counted_once_witness :
  exists p' w',
    InstrumentHandlerDuration Samples.middleware Samples.not_found 0
      new_response Samples.get_user = Ok (p', w')
    /\ total_count (request p')
       = (total_count (request Samples.middleware) + 1)%N.
Proof.
  exact (every_request_is_counted_once Samples.middleware Samples.not_found 0
           new_response Samples.get_user Samples.users_route eq_refl).
Defined.


(** ** The registry, instrument by instrument *)

Lemma register_or_log_appends (msg : string) (k : Kind) (d : Desc)
    (g : Globals) :
  exists regs logs,
    registry (snd (register_or_log msg k d g)) = registry g ++ regs
    /\ logged (snd (register_or_log msg k d g)) = logged g ++ logs
    /\ (length regs + length logs = 1)%nat.
Proof.
  destruct (decide (fqName d ∈ registered_names g)) as [Hd|Hd].
  - rewrite register_or_log_taken by exact Hd.
    exists [], [(msg, AlreadyRegisteredError (fqName d))]. cbn.
    rewrite app_nil_r. repeat split.
  - rewrite register_or_log_fresh by exact Hd.
    exists [(k, d)], []. cbn. rewrite app_nil_r. repeat split.
Qed.

Lemma register_or_log_NoDup (msg : string) (k : Kind) (d : Desc)
    (g : Globals) :
  NoDup (registered_names g) ->
  NoDup (registered_names (snd (register_or_log msg k d g))).
Proof.
  intros Hnodup. destruct (decide (fqName d ∈ registered_names g)) as [Hd|Hd].
  - rewrite register_or_log_taken by exact Hd. exact Hnodup.
  - rewrite register_or_log_fresh by exact Hd.
    unfold registered_names in *. cbn [registry]. rewrite map_app. cbn [map snd].
    apply NoDup_app. split; [exact Hnodup|]. split.
    + intros name Hin Hname. apply list_elem_of_singleton in Hname.
      subst name. exact (Hd Hin).
    + apply NoDup_singleton.
Qed.

(** X16. The constructor only appends to the registry and to the log, and
    it accounts for each of its four instruments exactly once: an
    instrument is either registered or logged as refused. Afterwards all
    four names are registered, by this middleware or by an earlier one. *)
Theorem constructor_registers_or_logs_each (opts : Opts) (g : Globals) :
  let m := fst (NewPrometheusMiddleware opts g) in
  let g' := snd (NewPrometheusMiddleware opts g) in
  (exists regs logs,
     registry g' = registry g ++ regs
     /\ logged g' = logged g ++ logs
     /\ (length regs + length logs = 4)%nat)
  /\ fqName (counter_desc (request m)) ∈ registered_names g'
  /\ fqName (histogram_desc (latency m)) ∈ registered_names g'
  /\ fqName (histogram_desc (reqSize m)) ∈ registered_names g'
  /\ fqName (histogram_desc (resSize m)) ∈ registered_names g'.
Proof.
  intros m g'. unfold g'.
  rewrite NewPrometheusMiddleware_registrations. cbn zeta. fold m.
  split.
  - set (g1 := snd (register_or_log _ Counter _ g)).
    set (g2 := snd (register_or_log _ Histogram (histogram_desc (latency m)) g1)).
    set (g3 := snd (register_or_log _ Histogram (histogram_desc (reqSize m)) g2)).
    destruct (register_or_log_appends
                "prometheusMiddleware.request was not registered:" Counter
                (counter_desc (request m)) g) as (r1 & l1 & Hr1 & Hl1 & Hn1).
    destruct (register_or_log_appends
                "prometheusMiddleware.latency was not registered:" Histogram
                (histogram_desc (latency m)) g1) as (r2 & l2 & Hr2 & Hl2 & Hn2).
    destruct (register_or_log_appends
                "prometheusMiddleware.reqSize was not registered:" Histogram
                (histogram_desc (reqSize m)) g2) as (r3 & l3 & Hr3 & Hl3 & Hn3).
    destruct (register_or_log_appends
                "prometheusMiddleware.resSize was not registered:" Histogram
                (histogram_desc (resSize m)) g3) as (r4 & l4 & Hr4 & Hl4 & Hn4).
    fold g1 in Hr1, Hl1. fold g2 in Hr2, Hl2. fold g3 in Hr3, Hl3.
    exists (r1 ++ r2 ++ r3 ++ r4), (l1 ++ l2 ++ l3 ++ l4).
    rewrite Hr4, Hr3, Hr2, Hr1, Hl4, Hl3, Hl2, Hl1, <- !app_assoc.
    split; [reflexivity|]. split; [reflexivity|].
    rewrite !length_app. lia.
  - split; [|split; [|split]].
    + do 3 apply register_or_log_mono. apply register_or_log_registered.
    + do 2 apply register_or_log_mono. apply register_or_log_registered.
    + apply register_or_log_mono. apply register_or_log_registered.
    + apply register_or_log_registered.
Qed.

(** X17. The constructor never registers a name twice: a registry whose
    names are all different keeps them all different. *)
Theorem constructor_keeps_names_distinct (opts : Opts) (g : Globals) :
  NoDup (registered_names g) ->
  NoDup (registered_names (snd (NewPrometheusMiddleware opts g))).
Proof.
  intros Hnodup. rewrite NewPrometheusMiddleware_registrations. cbn zeta.
  do 4 apply register_or_log_NoDup. exact Hnodup.
Qed.

Lemma constructor_keeps_names_distinct_witness :
  NoDup (registered_names
           (snd (NewPrometheusMiddleware Samples.plain
                   (snd (NewPrometheusMiddleware Samples.sminem
                           Samples.no_globals))))).
Proof.
  apply (constructor_keeps_names_distinct Samples.plain).
  apply (constructor_keeps_names_distinct Samples.sminem).
  apply NoDup_nil_2.
Defined.

(** ** The earlier revision *)

Lemma Rev1_NewPrometheusMiddleware_registrations (opts : Opts) (g : Globals) :
  let m := fst (NewPrometheusMiddleware opts g) in
  Rev1.NewPrometheusMiddleware opts g
  = ({| Rev1.request := request m; Rev1.latency := latency m |},
     snd (register_or_log "prometheusMiddleware.latency was not registered:"
            Histogram (histogram_desc (latency m))
         (snd (register_or_log "prometheusMiddleware.request was not registered:"
            Counter (counter_desc (request m)) g)))).
Proof.
  cbn zeta. rewrite NewPrometheusMiddleware_value. cbn zeta.
  cbn [request latency]. unfold Rev1.NewPrometheusMiddleware.
  destruct (Subsystem opts) as [|c sub]; cbn zeta;
    cbn [String.length Nat.ltb Nat.leb co_Name co_Help co_Namespace co_Subsystem
         ho_Name ho_Help ho_Buckets ho_Namespace ho_Subsystem];
    rewrite !bind_register_or_log; reflexivity.
Qed.

(** X18. The earlier revision's constructor, which sets the subsystem only
    when it is not empty, builds the counter and the latency histogram of
    the later one; the later constructor does what the earlier did and then
    appends the two size histograms, each registered or logged. *)
Theorem later_revision_extends_the_earlier (opts : Opts) (g : Globals) :
  let earlier := Rev1.NewPrometheusMiddleware opts g in
  let later := NewPrometheusMiddleware opts g in
  Rev1.request (fst earlier) = request (fst later)
  /\ Rev1.latency (fst earlier) = latency (fst later)
  /\ exists regs logs,
       registry (snd later) = registry (snd earlier) ++ regs
       /\ logged (snd later) = logged (snd earlier) ++ logs
       /\ (length regs + length logs = 2)%nat.
Proof.
  intros earlier later. unfold earlier, later.
  rewrite Rev1_NewPrometheusMiddleware_registrations. cbn zeta.
  cbn [fst snd Rev1.request Rev1.latency].
  split; [reflexivity|]. split; [reflexivity|].
  rewrite NewPrometheusMiddleware_registrations. cbn zeta.
  set (m := fst (NewPrometheusMiddleware opts g)).
  set (g2 := snd (register_or_log _ Histogram (histogram_desc (latency m)) _)).
  set (g3 := snd (register_or_log _ Histogram (histogram_desc (reqSize m)) g2)).
  destruct (register_or_log_appends
              "prometheusMiddleware.reqSize was not registered:" Histogram
              (histogram_desc (reqSize m)) g2) as (r3 & l3 & Hr3 & Hl3 & Hn3).
  destruct (register_or_log_appends
              "prometheusMiddleware.resSize was not registered:" Histogram
              (histogram_desc (resSize m)) g3) as (r4 & l4 & Hr4 & Hl4 & Hn4).
  fold g3 in Hr3, Hl3.
  exists (r3 ++ r4), (l3 ++ l4).
  rewrite Hr4, Hr3, Hl4, Hl3, <- !app_assoc.
  split; [reflexivity|]. split; [reflexivity|].
  rewrite !length_app. lia.
Qed.
